(** * vdom.core: the immutable virtual-DOM element, its codecs and factories

    A shallow embedding of [src/vdom/core.py] (Python 3 branch) and the
    properties its specification states about it.

    Python values are dynamically typed, so the embedding works over one
    universe [pyval] of the values the module manipulates.  Exceptions are an
    explicit [result]; [warnings.warn] is a writer effect collecting the
    messages emitted.  An instance of [VDOM] is its five [__slots__], each of
    which may still be unset while [__init__] runs. *)

From Stdlib Require Import String Ascii List Bool ZArith Lia.
Import ListNotations.
Local Open Scope list_scope.
Local Open Scope string_scope.

Set Implicit Arguments.
Set Warnings "-register-all".

(* ================================================================= *)
(** ** Python values *)

(** The [__slots__] of the class: ['tag_name', 'attributes', 'children',
    'key', '_frozen'].  [None] is a slot that was never assigned. *)
Record slots (V : Type) : Type := mkSlots {
  tag_name   : option V;
  attributes : option V;
  children   : option V;
  key        : option V;
  _frozen    : option V
}.

(** [PyDict] is a dict (or the package's immutable dict subclass
    [FrozenDict]) with [str] keys, in insertion order.  A Python dict may
    have any hashable key; the mappings of this universe are those keyed by
    strings, as keyword arguments and decoded JSON objects are.  Values that
    are none of these (classes, functions, floats) are outside it. *)
Inductive pyval : Type :=
| PyNone
| PyBool (b : bool)
| PyInt (z : Z)
| PyStr (s : string)
| PyList (l : list pyval)
| PyTuple (l : list pyval)
| PyDict (d : list (string * pyval))
| PyVDOM (self : slots pyval).

(** Induction over [pyval] reaching through lists, dict entries and slots. *)
Definition opt_holds {A} (P : A -> Prop) (o : option A) : Prop :=
  match o with Some a => P a | None => True end.

Section pyval_induction.
Variable P : pyval -> Prop.
Hypothesis HNone : P PyNone.
Hypothesis HBool : forall b, P (PyBool b).
Hypothesis HInt : forall z, P (PyInt z).
Hypothesis HStr : forall s, P (PyStr s).
Hypothesis HList : forall l, Forall P l -> P (PyList l).
Hypothesis HTuple : forall l, Forall P l -> P (PyTuple l).
Hypothesis HDict : forall d, Forall (fun kv => P (snd kv)) d -> P (PyDict d).
Hypothesis HVDOM : forall t a c k f,
    opt_holds P t -> opt_holds P a -> opt_holds P c ->
    opt_holds P k -> opt_holds P f ->
    P (PyVDOM (mkSlots t a c k f)).

Fixpoint pyval_nested_ind (v : pyval) : P v :=
  let on_list := fix on_list (l : list pyval) : Forall P l :=
    match l with
    | [] => Forall_nil _
    | x :: l' => Forall_cons _ (pyval_nested_ind x) (on_list l')
    end in
  let on_opt := fun (o : option pyval) =>
    match o return opt_holds P o with
    | Some x => pyval_nested_ind x
    | None => I
    end in
  match v with
  | PyNone => HNone
  | PyBool b => HBool b
  | PyInt z => HInt z
  | PyStr s => HStr s
  | PyList l => HList (on_list l)
  | PyTuple l => HTuple (on_list l)
  | PyDict d =>
      HDict ((fix on_dict (d : list (string * pyval))
               : Forall (fun kv => P (snd kv)) d :=
                match d with
                | [] => Forall_nil _
                | kv :: d' =>
                    Forall_cons _
                      (match kv return P (snd kv) with
                       | (_, x) => pyval_nested_ind x end)
                      (on_dict d')
                end) d)
  | PyVDOM (mkSlots t a c k f) =>
      HVDOM t a c k f (on_opt t) (on_opt a) (on_opt c) (on_opt k) (on_opt f)
  end.
End pyval_induction.

(* ================================================================= *)
(** ** Exceptions, results and warnings *)

(** The exception classes the module can raise.  Each of them derives
    directly from [Exception] (jsonschema's [ValidationError] included). *)
Inductive exc_class : Type :=
| Exception | ValueError | TypeError | AttributeError | KeyError
| ValidationError.

Definition exc_class_eqb (a b : exc_class) : bool :=
  match a, b with
  | Exception, Exception | ValueError, ValueError | TypeError, TypeError
  | AttributeError, AttributeError | KeyError, KeyError
  | ValidationError, ValidationError => true
  | _, _ => false
  end.

(** [issubclass a b] for the classes above. *)
Definition issubclass (a b : exc_class) : bool :=
  exc_class_eqb a b || exc_class_eqb b Exception.

(** A raised exception: its class, and its message when the module itself
    supplies one ([None] for the interpreter's and the validator's own
    texts, which are not modelled). *)
Record exc : Type := Raise { exc_type : exc_class; exc_msg : option string }.

Inductive result (A : Type) : Type :=
| Ok (a : A)
| Err (e : exc).
Arguments Ok {A} a.
Arguments Err {A} e.

Definition rbind {A B} (r : result A) (k : A -> result B) : result B :=
  match r with Ok a => k a | Err e => Err e end.

(** Code that may call [warnings.warn]: the messages emitted, in order,
    and the outcome.  A warning never alters the outcome. *)
Definition M (A : Type) : Type := (list string * result A)%type.

Definition ret {A} (a : A) : M A := ([], Ok a).
Definition raise {A} (e : exc) : M A := ([], Err e).
Definition warn (msg : string) : M unit := ([msg], Ok tt).
Definition lift {A} (r : result A) : M A := ([], r).

Definition bind {A B} (m : M A) (k : A -> M B) : M B :=
  match m with
  | (ws, Ok a) => let '(ws', r) := k a in ((ws ++ ws')%list, r)
  | (ws, Err e) => (ws, Err e)
  end.

Declare Scope py_scope.
Delimit Scope py_scope with py.
Notation "x <- e ;; k" := (bind e (fun x => k))
  (at level 61, e at next level, right associativity) : py_scope.
Notation "e ;;; k" := (bind e (fun _ => k))
  (at level 61, right associativity) : py_scope.
Notation "x <~ e ;; k" := (rbind e (fun x => k))
  (at level 61, e at next level, right associativity) : py_scope.
Local Open Scope py_scope.

Definition mapM_result {A B} (f : A -> result B) : list A -> result (list B) :=
  fix go (l : list A) : result (list B) :=
    match l with
    | [] => Ok []
    | a :: l' => b <~ f a ;; bs <~ go l' ;; Ok (b :: bs)
    end.

Definition mapM {A B} (f : A -> M B) : list A -> M (list B) :=
  fix go (l : list A) : M (list B) :=
    match l with
    | [] => ret []
    | a :: l' => b <- f a ;; bs <- go l' ;; ret (b :: bs)
    end.

(* ================================================================= *)
(** ** Builtins *)

(** Truth value of an object.  [VDOM] defines neither [__bool__] nor
    [__len__], so its instances are true. *)
Definition py_truthy (v : pyval) : bool :=
  match v with
  | PyNone => false
  | PyBool b => b
  | PyInt z => negb (Z.eqb z 0)
  | PyStr s => negb (String.eqb s "")
  | PyList l | PyTuple l => match l with [] => false | _ => true end
  | PyDict d => match d with [] => false | _ => true end
  | PyVDOM _ => true
  end.

Definition is_dict (v : pyval) : bool :=
  match v with PyDict _ => true | _ => false end.
Definition is_list (v : pyval) : bool :=
  match v with PyList _ => true | _ => false end.
Definition is_str (v : pyval) : bool :=
  match v with PyStr _ => true | _ => false end.
Definition is_VDOM (v : pyval) : bool :=
  match v with PyVDOM _ => true | _ => false end.

(** The characters of a string, each as a string of length one. *)
Fixpoint chars (s : string) : list pyval :=
  match s with
  | EmptyString => []
  | String c s' => PyStr (String c EmptyString) :: chars s'
  end.

(** What iterating over a value yields: the members of a list or tuple, the
    characters of a string, the keys of a dict; anything else is not
    iterable. *)
Definition py_iter (v : pyval) : result (list pyval) :=
  match v with
  | PyList l | PyTuple l => Ok l
  | PyStr s => Ok (chars s)
  | PyDict d => Ok (map (fun kv => PyStr (fst kv)) d)
  | _ => Err (Raise TypeError None)
  end.

(** [tuple(x)] *)
Definition py_tuple (v : pyval) : result pyval :=
  l <~ py_iter v ;; Ok (PyTuple l).

(** Dict lookup, first in continuation style (so that a recursive function
    may be applied to the value found), then the usual accessors. *)
Definition dict_find {R} (k : string) (found : pyval -> R) (missing : R)
  : list (string * pyval) -> R :=
  fix go (d : list (string * pyval)) : R :=
    match d with
    | [] => missing
    | (k', v) :: d' => if String.eqb k k' then found v else go d'
    end.

Definition dict_lookup (k : string) (d : list (string * pyval)) : option pyval :=
  dict_find k (fun v => Some v) None d.

(** [d.get(k, default)] *)
Definition dict_get (k : string) (default : pyval) (d : list (string * pyval))
  : pyval :=
  dict_find k (fun v => v) default d.

(** [k in d] *)
Definition dict_mem (k : string) (d : list (string * pyval)) : bool :=
  dict_find k (fun _ => true) false d.

(** The dict without its entry for [k] (what [pop] leaves behind). *)
Fixpoint dict_remove (k : string) (d : list (string * pyval))
  : list (string * pyval) :=
  match d with
  | [] => []
  | (k', v) :: d' =>
      if String.eqb k k' then dict_remove k d' else (k', v) :: dict_remove k d'
  end.

(* ================================================================= *)
(** ** [html.escape] *)

(** [s.replace(old, new)] for a pattern [old] of one character. *)
Fixpoint replace_char (old : ascii) (new : string) (s : string) : string :=
  match s with
  | EmptyString => EmptyString
  | String c s' =>
      if Ascii.eqb c old then new ++ replace_char old new s'
      else String c (replace_char old new s')
  end.

Definition ch_amp : ascii := "&"%char.
Definition ch_lt : ascii := "<"%char.
Definition ch_gt : ascii := ">"%char.
Definition ch_quot : ascii := ascii_of_nat 34.
Definition ch_apos : ascii := "'"%char.
Definition dquote : string := String ch_quot EmptyString.

(** Python 3's [html.escape(s, quote=True)]: five replacements, the one of
    the ampersand first. *)
Definition escape (s : string) : string :=
  let s := replace_char ch_amp "&amp;" s in
  let s := replace_char ch_lt "&lt;" s in
  let s := replace_char ch_gt "&gt;" s in
  let s := replace_char ch_quot "&quot;" s in
  let s := replace_char ch_apos "&#x27;" s in
  s.

(** [escape] applied to an arbitrary object: only a [str] has [replace]. *)
Definition py_escape (v : pyval) : result string :=
  match v with
  | PyStr s => Ok (escape s)
  | _ => Err (Raise AttributeError None)
  end.

(* ================================================================= *)
(** ** The [VDOM] object: slots and [__setattr__] *)

(** An instance with its four data slots assigned, and frozen. *)
Definition built (t fdv : pyval) (l : list pyval) (k : pyval) : slots pyval :=
  mkSlots (Some t) (Some fdv) (Some (PyTuple l)) (Some k) (Some (PyBool true)).

(** A freshly allocated instance: no slot assigned yet. *)
Definition new_object : slots pyval := mkSlots None None None None None.

(** [object.__setattr__] on a class with [__slots__]: assign the slot of
    that name.  There is no [__dict__], so any other name is an
    [AttributeError], but for [__class__], the one writable attribute that
    [object] itself has: it accepts only a class, and no value of [pyval]
    is one, so assigning it is a [TypeError]. *)
Definition object_setattr (self : slots pyval) (attr : string) (value : pyval)
  : result (slots pyval) :=
  let '(mkSlots t a c k f) := self in
  if String.eqb attr "tag_name" then Ok (mkSlots (Some value) a c k f)
  else if String.eqb attr "attributes" then Ok (mkSlots t (Some value) c k f)
  else if String.eqb attr "children" then Ok (mkSlots t a (Some value) k f)
  else if String.eqb attr "key" then Ok (mkSlots t a c (Some value) f)
  else if String.eqb attr "_frozen" then Ok (mkSlots t a c k (Some value))
  else if String.eqb attr "__class__" then Err (Raise TypeError None)
  else Err (Raise AttributeError None).

(** [hasattr(self, '_frozen') and self._frozen] *)
Definition is_frozen (self : slots pyval) : bool :=
  match _frozen self with
  | Some f => py_truthy f
  | None => false
  end.

Definition immutable_msg : string :=
  "Cannot change attribute of immutable object".

(** [VDOM.__setattr__]: the state of the object after the call, and whether
    the call returned or raised. *)
Definition __setattr__ (self : slots pyval) (attr : string) (value : pyval)
  : slots pyval * result unit :=
  if is_frozen self then
    (self, Err (Raise AttributeError (Some immutable_msg)))
  else
    match object_setattr self attr value with
    | Ok self' => (self', Ok tt)
    | Err e => (self, Err e)
    end.

(** The statement [self.attr = value] inside a method: continue with the
    updated object, or propagate the exception. *)
Definition assign (self : slots pyval) (attr : string) (value : pyval)
  : M (slots pyval) :=
  match __setattr__ self attr value with
  | (self', Ok _) => ret self'
  | (_, Err e) => raise e
  end.

(** Reading a slot: [AttributeError] while it is unset. *)
Definition read_slot (o : option pyval) : result pyval :=
  match o with
  | Some v => Ok v
  | None => Err (Raise AttributeError None)
  end.

(** The same read, handing the value to the rest of the method (the form a
    recursive method needs to descend into the value read). *)
Definition with_slot {R} (o : option pyval) (k : pyval -> result R) : result R :=
  match o with
  | Some v => k v
  | None => Err (Raise AttributeError None)
  end.

(** [obj.name] for the four data attributes; only a [VDOM] has them. *)
Definition getattr (proj : slots pyval -> option pyval) (obj : pyval)
  : result pyval :=
  match obj with
  | PyVDOM s => read_slot (proj s)
  | _ => Err (Raise AttributeError None)
  end.

(* ================================================================= *)
(** ** [VDOM.to_dict] and [VDOM._repr_html_] *)

(** [VDOM.to_dict].  The list under ['children'] is
    [[c.to_dict() if isinstance(c, VDOM) else c for c in self.children]];
    what a string or a dict yields when iterated are strings, passed on. *)
Fixpoint to_dict (self : pyval) : result pyval :=
  match self with
  | PyVDOM s =>
      tag <~ read_slot (tag_name s) ;;
      attrs <~ read_slot (attributes s) ;;
      k <~ read_slot (key s) ;;
      with_slot (children s) (fun cs =>
      items <~ match cs with
               | PyList l | PyTuple l =>
                   mapM_result
                     (fun c => match c with
                               | PyVDOM _ => to_dict c
                               | _ => Ok c
                               end) l
               | _ => py_iter cs
               end ;;
      Ok (PyDict ([("tagName", tag); ("attributes", attrs)]
                  ++ (if py_truthy k then [("key", k)] else [])
                  ++ [("children", PyList items)])%list))
  | _ => Err (Raise AttributeError None)
  end.

(** The entry of one child in that list. *)
Definition to_dict_child (c : pyval) : result pyval :=
  match c with PyVDOM _ => to_dict c | _ => Ok c end.

(** [self.attributes.items()] *)
Definition py_items (v : pyval) : result (list (string * pyval)) :=
  match v with
  | PyDict d => Ok d
  | _ => Err (Raise AttributeError None)
  end.

(** One attribute of the opening tag: a space, the escaped key, an equals
    sign and the escaped value between double quotes.  The key comes from a
    [PyDict], so it is a string and [escape(k)] returns; only [escape(v)]
    can raise here.  (A key that is not a string, which a Python dict could
    hold, would make [escape(k)] raise the same [AttributeError].) *)
Definition write_attribute (kv : string * pyval) : result string :=
  v <~ py_escape (snd kv) ;;
  Ok (" " ++ escape (fst kv) ++ "=" ++ dquote ++ v ++ dquote).

Definition concat_strings (l : list string) : string :=
  fold_right String.append "" l.

(** [VDOM._repr_html_], written to a string rather than to a [StringIO]. *)
Fixpoint _repr_html_ (self : pyval) : result string :=
  match self with
  | PyVDOM s =>
      tag <~ read_slot (tag_name s) ;;
      open_tag <~ py_escape tag ;;
      attrs <~ read_slot (attributes s) ;;
      items <~ py_items attrs ;;
      attr_text <~ mapM_result write_attribute items ;;
      with_slot (children s) (fun cs =>
      child_text <~ match cs with
                    | PyList l | PyTuple l =>
                        mapM_result
                          (fun c => match c with
                                    | PyStr t => Ok (escape t)
                                    | _ => _repr_html_ c
                                    end) l
                    | _ =>
                        l <~ py_iter cs ;;
                        mapM_result py_escape l
                    end ;;
      close_tag <~ py_escape tag ;;
      Ok ("<" ++ open_tag ++ concat_strings attr_text ++ ">"
          ++ concat_strings child_text
          ++ "</" ++ close_tag ++ ">"))
  | _ => Err (Raise AttributeError None)
  end.

(** What the loop over the children writes for one child. *)
Definition render_child (c : pyval) : result string :=
  match c with
  | PyStr t => Ok (escape t)
  | _ => _repr_html_ c
  end.

(* ================================================================= *)
(** ** Construction, decoding and the component factory *)

Definition deprecated_msg : string :=
  "Passing dict to VDOM constructor is deprecated".
Definition children_msg : string :=
  "Children must be a list of VDOM objects or strings".

(** [isinstance(c, (VDOM, str, unicode))] *)
Definition is_child (c : pyval) : bool := is_VDOM c || is_str c.

(** What [core.py] imports or loads and this development does not contain:
    - [validate instance schema]: whether jsonschema's
      [validate(instance, schema, cls=Draft4Validator)] returns rather than
      raises [ValidationError];
    - [VDOM_SCHEMA]: the document read from [schemas/vdom_schema_v1.json];
    - [dict_of_iterable]: what the [dict] constructor makes of an argument
      that is not a mapping (a sequence of pairs, or a [TypeError] or
      [ValueError]). *)
Class Environment : Type := {
  validate : pyval -> pyval -> bool;
  VDOM_SCHEMA : pyval;
  dict_of_iterable : pyval -> result (list (string * pyval))
}.

Section Core.

Context {env : Environment}.

(** Modelled from the spec: [FrozenDict] of [vdom/frozendict.py], the
    immutable mapping that holds the attributes (a [dict] whose mutators
    raise): empty when called without argument, a copy of the mapping it
    is given. *)
Definition FrozenDict (arg : option pyval) : result pyval :=
  match arg with
  | None => Ok (PyDict [])
  | Some (PyDict d) => Ok (PyDict d)
  | Some v => d <~ dict_of_iterable v ;; Ok (PyDict d)
  end.

(** [FrozenDict(attributes) if attributes else FrozenDict()] *)
Definition frozen_attributes (attributes_ : pyval) : result pyval :=
  if py_truthy attributes_ then FrozenDict (Some attributes_)
  else FrozenDict None.

(** [tuple(children) if children else tuple()] *)
Definition tuple_of_children (children_ : pyval) : result pyval :=
  if py_truthy children_ then py_tuple children_ else Ok (PyTuple []).

(** The [try: validate(...) except ValidationError as e: raise
    ValidationError(...)] blocks. *)
Definition checked_validate (instance schema : pyval) : M unit :=
  if validate instance schema then ret tt
  else raise (Raise ValidationError None).

(** [VDOM.validate] *)
Definition VDOM_validate (self : slots pyval) (schema : pyval) : M unit :=
  d <- lift (to_dict (PyVDOM self)) ;;
  checked_validate d schema.

(** The first lines of [VDOM.__init__], the backwards compatible
    interface: the four arguments the rest of the method works with.
    [from_dict] is the meaning of [VDOM.from_dict] (the two methods call
    each other). *)
Definition legacy_arguments (from_dict : pyval -> M pyval)
    (tag_name_ attributes_ children_ key_ : pyval)
  : M (pyval * pyval * pyval * pyval) :=
  if is_dict tag_name_ || is_list tag_name_ then
    warn deprecated_msg ;;;
    vdom_obj <- from_dict tag_name_ ;;
    t <- lift (getattr (@tag_name pyval) vdom_obj) ;;
    a <- lift (getattr (@attributes pyval) vdom_obj) ;;
    c <- lift (getattr (@children pyval) vdom_obj) ;;
    k <- lift (getattr (@key pyval) vdom_obj) ;;
    ret (t, a, c, k)
  else ret (tag_name_, attributes_, children_, key_).

(** The rest of [VDOM.__init__]: the assignments, the check of the
    children, the freeze and the optional validation. *)
Definition init_fields (self : slots pyval)
    (tag_name_ attributes_ children_ key_ schema : pyval)
  : M (slots pyval) :=
  self <- assign self "tag_name" tag_name_ ;;
  fd <- lift (frozen_attributes attributes_) ;;
  self <- assign self "attributes" fd ;;
  tp <- lift (tuple_of_children children_) ;;
  self <- assign self "children" tp ;;
  self <- assign self "key" key_ ;;
  cs <- lift (seq <~ read_slot (children self) ;; py_iter seq) ;;
  if negb (forallb is_child cs) then
    raise (Raise ValueError (Some children_msg))
  else
    self <- assign self "_frozen" (PyBool true) ;;
    match schema with
    | PyNone => ret self
    | _ => VDOM_validate self schema ;;; ret self
    end.

(** [VDOM.__init__].  Returns the object as the method leaves it. *)
Definition __init__ (from_dict : pyval -> M pyval) (self : slots pyval)
    (tag_name_ attributes_ children_ key_ schema : pyval)
  : M (slots pyval) :=
  args <- legacy_arguments from_dict
            tag_name_ attributes_ children_ key_ ;;
  let '(tag_name_, attributes_, children_, key_) := args in
  init_fields self tag_name_ attributes_ children_ key_ schema.

(** The call [cls(...)]: allocate, run [__init__], hand out the object.
    When [__init__] raises, the caller gets the exception and no object. *)
Definition VDOM_call (from_dict : pyval -> M pyval)
    (tag_name_ attributes_ children_ key_ schema : pyval) : M pyval :=
  self <- __init__ from_dict new_object
            tag_name_ attributes_ children_ key_ schema ;;
  ret (PyVDOM self).

(** [VDOM.from_dict] *)
Fixpoint from_dict (value : pyval) : M pyval :=
  checked_validate value VDOM_SCHEMA ;;;
  match value with
  | PyDict d =>
      dict_find "tagName"
        (fun tag =>
           let attrs := dict_get "attributes" (PyDict []) d in
           cs <- dict_find "children"
                   (fun seq =>
                      match seq with
                      | PyList l | PyTuple l =>
                          mapM (fun c => match c with
                                         | PyDict _ => from_dict c
                                         | _ => ret c
                                         end) l
                      | _ => lift (py_iter seq)
                      end)
                   (ret []) d ;;
           let k := dict_get "key" PyNone d in
           VDOM_call from_dict tag attrs (PyList cs) k PyNone)
        (raise (Raise KeyError None))
        d
  | _ => raise (Raise TypeError None)
  end.

(** What the comprehension of [from_dict] makes of one member, and of the
    value under ['children']. *)
Definition from_dict_child (c : pyval) : M pyval :=
  match c with PyDict _ => from_dict c | _ => ret c end.

Definition from_dict_children (seq : pyval) : M (list pyval) :=
  match seq with
  | PyList l | PyTuple l => mapM from_dict_child l
  | _ => lift (py_iter seq)
  end.

(** The constructor [VDOM(tag_name, attributes, children, key, schema)]. *)
Definition VDOM (tag_name_ attributes_ children_ key_ schema : pyval)
  : M pyval :=
  VDOM_call from_dict tag_name_ attributes_ children_ key_ schema.

Definition no_children_msg (tag_name_ : string) : string :=
  "<" ++ tag_name_ ++ " /> cannot have children".

(** The children a call of a component resolves to, from its positional
    arguments [args] and keyword arguments [kwargs], and the keyword
    arguments left once ['children'] is popped. *)
Definition resolve_children (args : list pyval)
    (kwargs : list (string * pyval)) : pyval * list (string * pyval) :=
  if dict_mem "children" kwargs then
    (dict_get "children" PyNone kwargs, dict_remove "children" kwargs)
  else
    match args with
    | [PyList l] => (PyTuple l, kwargs)
    | _ => (PyTuple args, kwargs)
    end.

(** The attributes it resolves to. *)
Definition resolve_attributes (kwargs : list (string * pyval)) : pyval :=
  if dict_mem "attributes" kwargs then dict_get "attributes" PyNone kwargs
  else PyDict kwargs.

(** [create_component(tag_name, allow_children)] applied to the positional
    and keyword arguments of a call of the [_component] it returns.  The
    tag is a [str], as the message formatted from it requires. *)
Definition create_component (tag_name_ : string) (allow_children : bool)
    (args : list pyval) (kwargs : list (string * pyval)) : M pyval :=
  let '(children_, kwargs) := resolve_children args kwargs in
  let attributes_ := resolve_attributes kwargs in
  if negb allow_children && py_truthy children_ then
    raise (Raise ValueError (Some (no_children_msg tag_name_)))
  else
    VDOM (PyStr tag_name_) attributes_ children_ PyNone PyNone.

End Core.

(* ================================================================= *)
(** ** A concrete environment *)

(** Modelled from the spec: the canonical schema document
    [schemas/vdom_schema_v1.json] and its validation, which are not part of
    the sources.  Section 6 gives the wire format: [tagName] a string
    (required); [attributes] a mapping from strings to strings (optional);
    [children] a sequence of nested nodes and strings (optional); [key] a
    string (optional). *)
Fixpoint wire_format_ok (v : pyval) : bool :=
  match v with
  | PyDict d =>
      dict_find "tagName" is_str false d
      && dict_find "attributes"
           (fun a => match a with
                     | PyDict ad => forallb (fun kv => is_str (snd kv)) ad
                     | _ => false
                     end) true d
      && dict_find "children"
           (fun c => match c with
                     | PyList l => forallb (fun x => is_str x || wire_format_ok x) l
                     | _ => false
                     end) true d
      && dict_find "key" is_str true d
  | _ => false
  end.

(** Modelled from the spec: the schema constant, as an opaque token. *)
Definition schema_v1 : pyval := PyStr "vdom_schema_v1.json".

(** Modelled from the spec: a validator that knows the canonical schema
    only; any other schema accepts everything. *)
Definition validate_v1 (instance schema : pyval) : bool :=
  match schema with
  | PyStr name => if String.eqb name "vdom_schema_v1.json"
                  then wire_format_ok instance else true
  | _ => true
  end.

(** [d[k] = v]: the entry of an existing key is replaced where it stands, a
    new one is added at the end. *)
Fixpoint dict_set (k : string) (v : pyval) (d : list (string * pyval))
  : list (string * pyval) :=
  match d with
  | [] => [(k, v)]
  | (k', v') :: d' =>
      if String.eqb k k' then (k, v) :: d' else (k', v') :: dict_set k v d'
  end.

(** The key and the value [dict] takes from one member of a sequence: the
    member must itself yield exactly two values.  Python's [dict] takes any
    hashable key; a key that is not a string cannot be held by [PyDict], and
    this environment, which serves the examples only, refuses it.  No
    theorem on an arbitrary [Environment] depends on that refusal. *)
Definition pair_of_member (m : pyval) : result (string * pyval) :=
  match py_iter m with
  | Ok [PyStr k; x] => Ok (k, x)
  | Ok [_; _] => Err (Raise TypeError None)
  | Ok _ => Err (Raise ValueError None)
  | Err e => Err e
  end.

(** [dict(iterable)] in the environment used for the examples. *)
Definition dict_of_iterable_v1 (v : pyval) : result (list (string * pyval)) :=
  members <~ py_iter v ;;
  fold_left (fun acc m =>
               d <~ acc ;; kv <~ pair_of_member m ;;
               Ok (dict_set (fst kv) (snd kv) d))
            members (Ok []).

#[export] Instance env_v1 : Environment := {|
  validate := validate_v1;
  VDOM_SCHEMA := schema_v1;
  dict_of_iterable := dict_of_iterable_v1
|}.

(** Some trees to evaluate the code on. *)
Definition leaf (tag : string) : pyval :=
  PyVDOM (built (PyStr tag) (PyDict []) [] PyNone).

Definition link_tree : pyval :=
  PyVDOM (built (PyStr "a")
                (PyDict [("href", PyStr "http://x?a=1&b=2")])
                [PyStr "She said 'hi' <now>"; leaf "br"]
                (PyStr "k1")).

Definition empty_key_tree : pyval :=
  PyVDOM (built (PyStr "div") (PyDict []) [] (PyStr "")).

(* ================================================================= *)
(** ** The data model as predicates on objects *)

(** An object of the shape [__init__] leaves behind: every slot assigned,
    frozen, the attributes a mapping, the children a tuple of strings and of
    objects of that shape again.  [tag_ok], [attrs_ok] and [key_ok] constrain
    the tag, the attribute mapping and the key of every node. *)
Fixpoint tree_shape (tag_ok : pyval -> bool)
    (attrs_ok : list (string * pyval) -> bool) (key_ok : pyval -> bool)
    (v : pyval) : bool :=
  match v with
  | PyVDOM (mkSlots (Some tag) (Some (PyDict d)) (Some (PyTuple l))
                    (Some k) (Some (PyBool true))) =>
      tag_ok tag && attrs_ok d && key_ok k
      && forallb (fun c => is_str c || tree_shape tag_ok attrs_ok key_ok c) l
  | _ => false
  end.

Definition anything {A} (_ : A) : bool := true.

(** What any object handed out by the constructor looks like. *)
Definition constructed : pyval -> bool := tree_shape anything anything anything.

Definition str_values (d : list (string * pyval)) : bool :=
  forallb (fun kv => is_str (snd kv)) d.

(** An optional key: absent ([None]) or a string. *)
Definition optional_key (k : pyval) : bool :=
  match k with PyNone | PyStr _ => true | _ => false end.

(** An optional key that is absent or a string other than the empty one. *)
Definition nonempty_key (k : pyval) : bool :=
  match k with
  | PyNone => true
  | PyStr s => negb (String.eqb s "")
  | _ => false
  end.

(** The Element Tree of the data model: tag a string, attributes a mapping
    from strings to strings, children text or Element Trees, key optional. *)
Definition valid_tree : pyval -> bool := tree_shape is_str str_values optional_key.

(** The same, with every key in the tree absent or non-empty. *)
Definition keyed_tree : pyval -> bool := tree_shape is_str str_values nonempty_key.

(** How [to_dict] lists a child: an element by its own [to_dict], anything
    else (text) as it is. *)
Definition converted_child (c item : pyval) : Prop :=
  if is_VDOM c then to_dict c = Ok item else item = c.

(** Number of element nodes and of attributes in a tree. *)
Fixpoint count_nodes (v : pyval) : nat :=
  match v with
  | PyVDOM (mkSlots _ _ (Some (PyTuple l)) _ _) =>
      S (list_sum (map count_nodes l))
  | PyVDOM _ => 1
  | _ => 0
  end.

Fixpoint count_attributes (v : pyval) : nat :=
  match v with
  | PyVDOM (mkSlots _ a (Some (PyTuple l)) _ _) =>
      (match a with Some (PyDict d) => length d | _ => 0 end)
      + list_sum (map count_attributes l)
  | _ => 0
  end.

(** Occurrences of a character in a string. *)
Fixpoint count_char (c : ascii) (s : string) : nat :=
  match s with
  | EmptyString => 0
  | String c' s' => (if Ascii.eqb c' c then 1 else 0) + count_char c s'
  end.

(** The table of character references: what stands for one character in
    escaped text.  The ampersand, [<], [>] and the double quote are those of
    the escaping rule of the specification, the apostrophe is the fifth
    replacement of [html.escape]; any other character stands for itself. *)
Definition escape_char (c : ascii) : string :=
  if Ascii.eqb c ch_amp then "&amp;"
  else if Ascii.eqb c ch_lt then "&lt;"
  else if Ascii.eqb c ch_gt then "&gt;"
  else if Ascii.eqb c ch_quot then "&quot;"
  else if Ascii.eqb c ch_apos then "&#x27;"
  else String c EmptyString.

Fixpoint escape_chars (s : string) : string :=
  match s with
  | EmptyString => EmptyString
  | String c s' => escape_char c ++ escape_chars s'
  end.

Definition is_special (c : ascii) : bool :=
  Ascii.eqb c ch_amp || Ascii.eqb c ch_lt || Ascii.eqb c ch_gt
  || Ascii.eqb c ch_quot || Ascii.eqb c ch_apos.

(** Number of characters of a string that [escape] replaces. *)
Fixpoint count_special (s : string) : nat :=
  match s with
  | EmptyString => 0
  | String c s' => (if is_special c then 1 else 0) + count_special s'
  end.

(** The same over everything a tree contributes to its markup: the tag
    (written twice), the attribute keys and values, the text children. *)
Fixpoint content_specials (v : pyval) : nat :=
  match v with
  | PyStr s => count_special s
  | PyVDOM (mkSlots (Some (PyStr tag)) (Some (PyDict d)) (Some (PyTuple l)) _ _) =>
      2 * count_special tag
      + list_sum (map (fun kv => count_special (fst kv)
                                 + match snd kv with
                                   | PyStr v => count_special v
                                   | _ => 0
                                   end) d)
      + list_sum (map content_specials l)
  | _ => 0
  end.

(** The five character references [escape] produces, without their
    ampersand. *)
Definition entity_tails : list string :=
  ["amp;"; "lt;"; "gt;"; "quot;"; "#x27;"].

(** Every ampersand of the string starts one of those references. *)
Fixpoint ampersands_escaped (s : string) : bool :=
  match s with
  | EmptyString => true
  | String c s' =>
      (if Ascii.eqb c ch_amp
       then existsb (fun e => String.prefix e s') entity_tails else true)
      && ampersands_escaped s'
  end.

(** A piece of markup with [nlt] characters [<], [ngt] characters [>],
    [nquot] double quotes, [namp] ampersands each starting a character
    reference, and no apostrophe. *)
Definition accounted (out : string) (nlt ngt nquot namp : nat) : Prop :=
  count_char ch_lt out = nlt
  /\ count_char ch_gt out = ngt
  /\ count_char ch_quot out = nquot
  /\ count_char ch_amp out = namp
  /\ count_char ch_apos out = 0
  /\ ampersands_escaped out = true.

(** *** The markup, character by character

    The markup of an Element Tree as the serializer is specified: the
    opening tag with its attributes, the children in order, the closing tag,
    where every character of a tag, an attribute key, an attribute value or
    a text child is written by the table [escape_char], each of the five
    characters as its own reference.  It does not use [escape]. *)
Definition spec_attribute (kv : string * pyval) : string :=
  " " ++ escape_chars (fst kv) ++ "=" ++ dquote
  ++ match snd kv with PyStr v => escape_chars v | _ => "" end
  ++ dquote.

Fixpoint spec_markup (v : pyval) : string :=
  match v with
  | PyStr s => escape_chars s
  | PyVDOM (mkSlots (Some (PyStr tag)) (Some (PyDict d)) (Some (PyTuple l)) _ _) =>
      "<" ++ escape_chars tag ++ concat_strings (map spec_attribute d) ++ ">"
      ++ concat_strings (map spec_markup l)
      ++ "</" ++ escape_chars tag ++ ">"
  | _ => ""
  end.

(** The reference written for an apostrophe, and the number of places of a
    string at which a given text starts. *)
Definition apos_ref : string := "&#x27;".

Fixpoint count_occurrences (pat s : string) : nat :=
  match s with
  | EmptyString => 0
  | String c s' =>
      (if String.prefix pat (String c s') then 1 else 0)
      + count_occurrences pat s'
  end.

(** Number of apostrophes in everything a tree contributes to its markup:
    the tag (written twice), the attribute keys and values, the text
    children. *)
Fixpoint content_apostrophes (v : pyval) : nat :=
  match v with
  | PyStr s => count_char ch_apos s
  | PyVDOM (mkSlots (Some (PyStr tag)) (Some (PyDict d)) (Some (PyTuple l)) _ _) =>
      2 * count_char ch_apos tag
      + list_sum (map (fun kv => count_char ch_apos (fst kv)
                                 + match snd kv with
                                   | PyStr v => count_char ch_apos v
                                   | _ => 0
                                   end) d)
      + list_sum (map content_apostrophes l)
  | _ => 0
  end.

(** A piece of markup with [n] references [&#x27;], every ampersand of which
    starts a character reference. *)
Definition referenced (out : string) (n : nat) : Prop :=
  count_occurrences apos_ref out = n /\ ampersands_escaped out = true.

(* ================================================================= *)
(** ** The rest of the module: [to_json], [h], [create_element], the
       display bundle *)

(** [d.update(other)]: the entries of [other], in their order, set into [d]. *)
Definition dict_update (d other : list (string * pyval))
  : list (string * pyval) :=
  fold_left (fun acc kv => dict_set (fst kv) (snd kv) acc) other d.

(** What the module function [to_json] can raise: the exceptions above, and
    the [AssertionError] of its [assert] statement. *)
Inductive raised : Type :=
| Raised (e : exc)
| AssertionError.

Inductive outcome (A : Type) : Type :=
| Returned (a : A)
| Failed (r : raised).
Arguments Returned {A} a.
Arguments Failed {A} r.

Definition obind {A B} (o : outcome A) (k : A -> outcome B) : outcome B :=
  match o with Returned a => k a | Failed r => Failed r end.

Definition outcome_of {A} (r : result A) : outcome A :=
  match r with Ok a => Returned a | Err e => Failed (Raised e) end.

Definition mapM_outcome {A B} (f : A -> outcome B)
  : list A -> outcome (list B) :=
  fix go (l : list A) : outcome (list B) :=
    match l with
    | [] => Returned []
    | a :: l' => obind (f a) (fun b => obind (go l') (fun bs => Returned (b :: bs)))
    end.

(** The dict branch of [to_json]: a copy of the mapping, with an empty
    ['attributes'] and an empty ['children'] added at the end when it has
    none. *)
Definition with_defaults (d : list (string * pyval)) : list (string * pyval) :=
  let d := if dict_mem "attributes" d then d
           else dict_set "attributes" (PyDict []) d in
  if dict_mem "children" d then d else dict_set "children" (PyList []) d.

(** [VDOM._repr_mimebundle_]; [include], [exclude] and the keyword arguments
    are not looked at. *)
Definition _repr_mimebundle_ (self : pyval) : result pyval :=
  d <~ to_dict self ;;
  html <~ _repr_html_ self ;;
  Ok (PyDict [("application/vdom.v1+json", d); ("text/plain", PyStr html)]).

(** The head of an escaped text read back: a character reference as the
    character it stands for, any other character as itself. *)
Definition unescape_head (s : string) : option (ascii * string) :=
  match s with
  | EmptyString => None
  | String "&" (String "a" (String "m" (String "p" (String ";" rest)))) =>
      Some (ch_amp, rest)
  | String "&" (String "l" (String "t" (String ";" rest))) =>
      Some (ch_lt, rest)
  | String "&" (String "g" (String "t" (String ";" rest))) =>
      Some (ch_gt, rest)
  | String "&" (String "q" (String "u" (String "o" (String "t" (String ";" rest))))) =>
      Some (ch_quot, rest)
  | String "&" (String "#" (String "x" (String "2" (String "7" (String ";" rest))))) =>
      Some (ch_apos, rest)
  | String c rest => Some (c, rest)
  end.

(** A tree that can be written as markup: every tag a string and every
    attribute value a string, at every level. *)
Definition renderable : pyval -> bool := tree_shape is_str str_values anything.

(** What [_repr_html_] does with a tree, by whether it is [renderable]. *)
Definition render_outcome (t : pyval) : Prop :=
  if renderable t then exists out, _repr_html_ t = Ok out
  else _repr_html_ t = Err (Raise AttributeError None).

(** A tree with every key that [to_dict] leaves out (a false one: [None],
    the empty string) replaced by [None]. *)
Fixpoint without_false_keys (v : pyval) : pyval :=
  match v with
  | PyVDOM (mkSlots t a (Some (PyTuple l)) (Some k) f) =>
      PyVDOM (mkSlots t a (Some (PyTuple (map without_false_keys l)))
                      (Some (if py_truthy k then k else PyNone)) f)
  | _ => v
  end.

(** A value in which no [VDOM] object occurs: decoded JSON, for one. *)
Fixpoint object_free (v : pyval) : bool :=
  match v with
  | PyList l | PyTuple l => forallb object_free l
  | PyDict d => forallb (fun kv => object_free (snd kv)) d
  | PyVDOM _ => false
  | _ => true
  end.

Section Rest.

Context {env : Environment}.

(** The module function [to_json(el, schema=None)].  A [PyDict] argument
    stands for a plain [dict], the exact type the function tests for. *)
Fixpoint to_json (el : pyval) (schema : pyval) : outcome pyval :=
  obind
    (match el with
     | PyStr _ => Returned el
     | PyList l => obind (mapM_outcome (fun x => to_json x PyNone) l)
                         (fun js => Returned (PyList js))
     | PyDict d =>
         if dict_mem "tagName" d then Returned (PyDict (with_defaults d))
         else Failed AssertionError
     | PyVDOM _ => outcome_of (to_dict el)
     | _ => Returned el
     end)
    (fun json_el =>
       if py_truthy schema then
         if validate json_el schema then Returned json_el
         else Failed (Raised (Raise ValidationError None))
       else Returned json_el).

Definition create_element_msg : string :=
  "Warning: createElement is deprecated in favor of createComponent".

(** [create_element(tagName)]: the warning, then the component. *)
Definition create_element (tagName : string)
  : M (list pyval -> list (string * pyval) -> M pyval) :=
  warn create_element_msg ;;;
  ret (create_component tagName true).

(** [h(tagName, *children, **kwargs)], its positional arguments after the
    tag in [children_].  A value under ['attrs'] that is not a dict has no
    [copy] or no [update]. *)
Definition h (tagName : string) (children_ : list pyval)
    (kwargs : list (string * pyval)) : M pyval :=
  let '(attrs, kwargs) :=
    if dict_mem "attrs" kwargs then
      (dict_get "attrs" PyNone kwargs, dict_remove "attrs" kwargs)
    else (PyDict [], kwargs) in
  match attrs with
  | PyDict a =>
      create_component tagName true [PyTuple children_] (dict_update a kwargs)
  | _ => raise (Raise AttributeError None)
  end.

End Rest.

(* ================================================================= *)
(** * Properties *)

Unset Implicit Arguments.

(** ** The effect monad *)

Lemma bind_ret {A B} (a : A) (k : A -> M B) : bind (ret a) k = k a.
Proof. unfold bind, ret. destruct (k a); reflexivity. Qed.

Lemma bind_lift_ok {A B} (a : A) (k : A -> M B) : bind (lift (Ok a)) k = k a.
Proof. apply bind_ret. Qed.

Lemma bind_lift_err {A B} (e : exc) (k : A -> M B) :
  bind (lift (Err e)) k = raise e.
Proof. reflexivity. Qed.

Lemma bind_raise {A B} (e : exc) (k : A -> M B) : bind (raise e) k = raise e.
Proof. reflexivity. Qed.

Lemma bind_ok_inv {A B} (m : M A) (k : A -> M B) ws b :
  bind m k = (ws, Ok b) ->
  exists ws1 a ws2,
    m = (ws1, Ok a) /\ k a = (ws2, Ok b) /\ ws = (ws1 ++ ws2)%list.
Proof.
  unfold bind. destruct m as [ws1 [a | e]]; [| discriminate].
  destruct (k a) as [ws2 r] eqn:Hk. intros H. inversion H; subst.
  exists ws1, a, ws2. auto.
Qed.

Lemma lift_ok_inv {A} (r : result A) ws a :
  lift r = (ws, Ok a) -> r = Ok a /\ ws = [].
Proof. unfold lift. intros H. inversion H. auto. Qed.

(** ** Escaping *)

Lemma append_assoc (a b c : string) : (a ++ b) ++ c = a ++ (b ++ c).
Proof.
  induction a as [| x a IH]; [reflexivity |]. cbn. rewrite IH. reflexivity.
Qed.

Lemma replace_char_app old new a b :
  replace_char old new (a ++ b)
  = replace_char old new a ++ replace_char old new b.
Proof.
  induction a as [| c a IH]; [reflexivity |].
  cbn. destruct (Ascii.eqb c old).
  - rewrite IH, append_assoc. reflexivity.
  - cbn. rewrite IH. reflexivity.
Qed.

Lemma escape_app a b : escape (a ++ b) = escape a ++ escape b.
Proof. unfold escape. rewrite !replace_char_app. reflexivity. Qed.

Lemma escape_one c : escape (String c EmptyString) = escape_char c.
Proof. destruct c as [[] [] [] [] [] [] [] []]; reflexivity. Qed.

Lemma escape_cons c s : escape (String c s) = escape_char c ++ escape s.
Proof.
  change (String c s) with (String c EmptyString ++ s).
  rewrite escape_app, escape_one. reflexivity.
Qed.

(** [escape] replaces the five characters one by one and keeps the rest. *)
Lemma escape_charwise s : escape s = escape_chars s.
Proof.
  induction s as [| c s IH]; [reflexivity |].
  rewrite escape_cons, IH. reflexivity.
Qed.

Lemma count_char_app c a b :
  count_char c (a ++ b) = count_char c a + count_char c b.
Proof.
  induction a as [| x a IH]; [reflexivity |].
  cbn. rewrite IH. lia.
Qed.

Lemma prefix_app e a b :
  String.prefix e a = true -> String.prefix e (a ++ b) = true.
Proof.
  revert a. induction e as [| x e IH]; intros a H.
  - destruct (a ++ b); reflexivity.
  - destruct a as [| y a]; [discriminate |].
    cbn in *. destruct (ascii_dec x y); [auto | discriminate].
Qed.

Lemma ampersands_escaped_app a b :
  ampersands_escaped a = true -> ampersands_escaped b = true ->
  ampersands_escaped (a ++ b) = true.
Proof.
  intros Ha Hb. induction a as [| c a IH]; [exact Hb |].
  cbn [ampersands_escaped append] in Ha |- *.
  apply andb_prop in Ha as [Hc Ha].
  rewrite (IH Ha), andb_true_r.
  destruct (Ascii.eqb c ch_amp); [| reflexivity].
  apply existsb_exists in Hc as (e & He & Hpre).
  apply existsb_exists. exists e. split; [exact He |].
  apply prefix_app. exact Hpre.
Qed.

Lemma accounted_app a b l1 g1 q1 m1 l2 g2 q2 m2 :
  accounted a l1 g1 q1 m1 -> accounted b l2 g2 q2 m2 ->
  accounted (a ++ b) (l1 + l2) (g1 + g2) (q1 + q2) (m1 + m2).
Proof.
  intros (Hl1 & Hg1 & Hq1 & Hm1 & Ha1 & He1) (Hl2 & Hg2 & Hq2 & Hm2 & Ha2 & He2).
  unfold accounted. rewrite !count_char_app.
  repeat split; try lia. apply ampersands_escaped_app; assumption.
Qed.

Lemma accounted_escape_char c :
  accounted (escape_char c) 0 0 0 (if is_special c then 1 else 0).
Proof.
  destruct c as [[] [] [] [] [] [] [] []]; vm_compute; auto 10.
Qed.

(** The escaped form of a string has none of [<], [>], the double quote and
    the apostrophe, and one character reference per character replaced. *)
Lemma accounted_escape s : accounted (escape s) 0 0 0 (count_special s).
Proof.
  induction s as [| c s IH].
  - vm_compute. auto 10.
  - rewrite escape_cons. cbn [count_special].
    apply (accounted_app _ _ 0 0 0 _ 0 0 0 _ (accounted_escape_char c) IH).
Qed.

Lemma accounted_eq out l g q m l' g' q' m' :
  accounted out l g q m -> l = l' -> g = g' -> q = q' -> m = m' ->
  accounted out l' g' q' m'.
Proof. intros H -> -> -> ->. exact H. Qed.

(** ** Induction over trees *)

Lemma tree_shape_ind (tag_ok : pyval -> bool)
    (attrs_ok : list (string * pyval) -> bool) (key_ok : pyval -> bool)
    (Q : pyval -> Prop) :
  (forall tag d l k,
      tag_ok tag = true -> attrs_ok d = true -> key_ok k = true ->
      forallb (fun c => is_str c || tree_shape tag_ok attrs_ok key_ok c) l
      = true ->
      Forall (fun c => tree_shape tag_ok attrs_ok key_ok c = true -> Q c) l ->
      Q (PyVDOM (built tag (PyDict d) l k))) ->
  forall v, tree_shape tag_ok attrs_ok key_ok v = true -> Q v.
Proof.
  intros Hnode.
  set (shape := tree_shape tag_ok attrs_ok key_ok).
  assert (H : forall v,
             (shape v = true -> Q v)
             /\ (forall l, v = PyTuple l ->
                           Forall (fun c => shape c = true -> Q c) l)).
  { induction v using pyval_nested_ind;
      try solve [split; [discriminate | intros ? [=]]].
    - split; [discriminate |]. intros l' [= <-].
      eapply Forall_impl; [| exact H]. intros c [Hc _]. exact Hc.
    - split; [| intros ? [=]].
      destruct t as [tag |]; [| discriminate].
      destruct a as [[| | | | | | d |] |]; try discriminate.
      destruct c as [[| | | | | l | |] |]; try discriminate.
      destruct k as [k |]; [| discriminate].
      destruct f as [[| [] | | | | | |] |]; try discriminate.
      intros Hs. subst shape. cbn in Hs.
      apply andb_prop in Hs as [Hs Hl]. apply andb_prop in Hs as [Hs Hk].
      apply andb_prop in Hs as [Ht Ha].
      apply Hnode; auto.
      cbn in H1. destruct H1 as [_ H1]. apply H1. reflexivity. }
  intros v. apply H.
Qed.

Lemma mapM_result_total {A B} (f : A -> result B) (R : A -> Prop) l :
  Forall R l ->
  (forall a, R a -> exists b, f a = Ok b) ->
  exists bs, mapM_result f l = Ok bs
             /\ Forall2 (fun a b => f a = Ok b) l bs.
Proof.
  intros Hl Hf. induction Hl as [| a l Ha _ IH].
  - exists []. split; [reflexivity | constructor].
  - destruct (Hf a Ha) as [b Hb]. destruct IH as (bs & Hbs & HF).
    exists (b :: bs). cbn. rewrite Hb. cbn.
    change ((fix go (l0 : list A) : result (list B) :=
               match l0 with
               | [] => Ok []
               | a0 :: l' => b0 <~ f a0;; bs0 <~ go l';; Ok (b0 :: bs0)
               end) l) with (mapM_result f l).
    rewrite Hbs. cbn. split; [reflexivity | constructor; assumption].
Qed.

(** ** The markup *)

Ltac tally := clear; unfold list_sum; cbn [fold_right map fst snd]; lia.

Lemma mapM_result_cons {A B} (f : A -> result B) a l :
  mapM_result f (a :: l)
  = (b <~ f a ;; bs <~ mapM_result f l ;; Ok (b :: bs)).
Proof. reflexivity. Qed.

Lemma repr_html_built tag d l k :
  _repr_html_ (PyVDOM (built (PyStr tag) (PyDict d) l k))
  = (attr_text <~ mapM_result write_attribute d ;;
     child_text <~ mapM_result render_child l ;;
     Ok ("<" ++ escape tag ++ concat_strings attr_text ++ ">"
         ++ concat_strings child_text ++ "</" ++ escape tag ++ ">")).
Proof. reflexivity. Qed.

Lemma accounted_literal out l g q :
  count_char ch_lt out = l -> count_char ch_gt out = g ->
  count_char ch_quot out = q -> count_char ch_amp out = 0 ->
  count_char ch_apos out = 0 -> ampersands_escaped out = true ->
  accounted out l g q 0.
Proof. unfold accounted. auto 10. Qed.

Lemma attribute_rendered k v :
  accounted (" " ++ escape k ++ "=" ++ dquote ++ escape v ++ dquote)
            0 0 2 (count_special k + count_special v).
Proof.
  pose proof (accounted_literal " " 0 0 0 eq_refl eq_refl eq_refl eq_refl
                eq_refl eq_refl) as Hsp.
  pose proof (accounted_literal "=" 0 0 0 eq_refl eq_refl eq_refl eq_refl
                eq_refl eq_refl) as Heq.
  pose proof (accounted_literal dquote 0 0 1 eq_refl eq_refl eq_refl eq_refl
                eq_refl eq_refl) as Hq.
  pose proof (accounted_escape k) as Hk. pose proof (accounted_escape v) as Hv.
  eapply accounted_eq.
  - exact (accounted_app _ _ _ _ _ _ _ _ _ _ Hsp
             (accounted_app _ _ _ _ _ _ _ _ _ _ Hk
                (accounted_app _ _ _ _ _ _ _ _ _ _ Heq
                   (accounted_app _ _ _ _ _ _ _ _ _ _ Hq
                      (accounted_app _ _ _ _ _ _ _ _ _ _ Hv Hq))))).
  - tally.
  - tally.
  - tally.
  - tally.
Qed.

Lemma attributes_rendered d :
  str_values d = true ->
  exists texts,
    mapM_result write_attribute d = Ok texts
    /\ accounted (concat_strings texts) 0 0 (2 * length d)
         (list_sum (map (fun kv => count_special (fst kv)
                                   + match snd kv with
                                     | PyStr v => count_special v
                                     | _ => 0
                                     end) d)).
Proof.
  induction d as [| [k v] d IH]; intros Hd.
  - exists []. split; [reflexivity |]. vm_compute. auto 10.
  - cbn in Hd. apply andb_prop in Hd as [Hv Hd].
    destruct v; try discriminate.
    destruct (IH Hd) as (texts & Htexts & Hacc).
    eexists. rewrite mapM_result_cons, Htexts.
    split; [reflexivity |].
    cbn [concat_strings fold_right map list_sum fst snd length].
    eapply accounted_eq.
    + exact (accounted_app _ _ _ _ _ _ _ _ _ _ (attribute_rendered k s) Hacc).
    + tally.
    + tally.
    + tally.
    + tally.
Qed.

Lemma children_rendered l :
  forallb (fun c => is_str c || valid_tree c) l = true ->
  Forall (fun c => valid_tree c = true ->
                   exists out,
                     _repr_html_ c = Ok out
                     /\ accounted out (2 * count_nodes c) (2 * count_nodes c)
                          (2 * count_attributes c) (content_specials c)) l ->
  exists texts,
    mapM_result render_child l = Ok texts
    /\ accounted (concat_strings texts)
         (2 * list_sum (map count_nodes l)) (2 * list_sum (map count_nodes l))
         (2 * list_sum (map count_attributes l))
         (list_sum (map content_specials l)).
Proof.
  induction l as [| c l IHl]; intros Hl IH.
  - exists []. split; [reflexivity |]. vm_compute. auto 10.
  - cbn in Hl. apply andb_prop in Hl as [Hc Hl].
    inversion IH as [| ? ? IHc IHrest]; subst.
    destruct (IHl Hl IHrest) as (texts & Htexts & Hacc).
    assert (Hone : exists out,
               render_child c = Ok out
               /\ accounted out (2 * count_nodes c) (2 * count_nodes c)
                    (2 * count_attributes c) (content_specials c)).
    { destruct c; try discriminate.
      - exists (escape s). split; [reflexivity |]. apply accounted_escape.
      - apply IHc. exact Hc. }
    destruct Hone as (out & Hout & Haccc).
    eexists. rewrite mapM_result_cons, Hout, Htexts.
    split; [reflexivity |].
    cbn [concat_strings fold_right map list_sum].
    eapply accounted_eq.
    + exact (accounted_app _ _ _ _ _ _ _ _ _ _ Haccc Hacc).
    + tally.
    + tally.
    + tally.
    + tally.
Qed.

(** The markup of an Element Tree: it is produced, and every [<], [>],
    double quote and ampersand in it is accounted for. *)
Lemma markup_accounted t :
  valid_tree t = true ->
  exists out,
    _repr_html_ t = Ok out
    /\ accounted out (2 * count_nodes t) (2 * count_nodes t)
         (2 * count_attributes t) (content_specials t).
Proof.
  revert t. unfold valid_tree. apply tree_shape_ind.
  intros tag d l k Htag Hattrs _ Hl IH. fold valid_tree in Hl, IH.
  destruct tag as [| | | tag | | | |]; try discriminate.
  destruct (attributes_rendered d Hattrs) as (atexts & Hat & Hacca).
  destruct (children_rendered l Hl IH) as (ctexts & Hct & Haccc).
  rewrite repr_html_built, Hat, Hct. cbn [rbind].
  eexists. split; [reflexivity |].
  pose proof (accounted_literal "<" 1 0 0 eq_refl eq_refl eq_refl eq_refl
                eq_refl eq_refl) as Hopen.
  pose proof (accounted_literal ">" 0 1 0 eq_refl eq_refl eq_refl eq_refl
                eq_refl eq_refl) as Hclose.
  pose proof (accounted_literal "</" 1 0 0 eq_refl eq_refl eq_refl eq_refl
                eq_refl eq_refl) as Hend.
  pose proof (accounted_escape tag) as Htagacc.
  eapply accounted_eq.
  - exact (accounted_app _ _ _ _ _ _ _ _ _ _ Hopen
             (accounted_app _ _ _ _ _ _ _ _ _ _ Htagacc
                (accounted_app _ _ _ _ _ _ _ _ _ _ Hacca
                   (accounted_app _ _ _ _ _ _ _ _ _ _ Hclose
                      (accounted_app _ _ _ _ _ _ _ _ _ _ Haccc
                         (accounted_app _ _ _ _ _ _ _ _ _ _ Hend
                            (accounted_app _ _ _ _ _ _ _ _ _ _ Htagacc
                               Hclose))))))).
  - cbn [count_nodes built]. tally.
  - cbn [count_nodes built]. tally.
  - cbn [count_attributes built]. tally.
  - cbn [content_specials built]. tally.
Qed.

(** *** Each character as its own reference *)

Lemma attributes_as_specified d :
  str_values d = true ->
  mapM_result write_attribute d = Ok (map spec_attribute d).
Proof.
  induction d as [| [k v] d IH]; intros Hd; [reflexivity |].
  cbn in Hd. apply andb_prop in Hd as [Hv Hd].
  destruct v; try discriminate.
  rewrite mapM_result_cons, (IH Hd).
  unfold write_attribute, spec_attribute. cbn [fst snd py_escape rbind map].
  rewrite !escape_charwise. reflexivity.
Qed.

Lemma children_as_specified l :
  forallb (fun c => is_str c || valid_tree c) l = true ->
  Forall (fun c => valid_tree c = true -> _repr_html_ c = Ok (spec_markup c)) l ->
  mapM_result render_child l = Ok (map spec_markup l).
Proof.
  induction l as [| c l IHl]; intros Hl IH; [reflexivity |].
  cbn in Hl. apply andb_prop in Hl as [Hc Hl].
  inversion IH as [| ? ? IHc IHrest]; subst.
  rewrite mapM_result_cons, (IHl Hl IHrest).
  assert (Hone : render_child c = Ok (spec_markup c)).
  { destruct c; try discriminate.
    - cbn [render_child spec_markup]. rewrite escape_charwise. reflexivity.
    - apply IHc. exact Hc. }
  rewrite Hone. reflexivity.
Qed.

(** The serializer writes the markup of the specification: the tags, the
    attributes and the children in their places, and every character of the
    content by the table of references. *)
Lemma markup_as_specified t :
  valid_tree t = true -> _repr_html_ t = Ok (spec_markup t).
Proof.
  revert t. unfold valid_tree. apply tree_shape_ind.
  intros tag d l k Htag Hattrs _ Hl IH. fold valid_tree in Hl, IH.
  destruct tag as [| | | tag | | | |]; try discriminate.
  rewrite repr_html_built, (attributes_as_specified d Hattrs),
    (children_as_specified l Hl IH).
  cbn [rbind spec_markup built]. rewrite !escape_charwise. reflexivity.
Qed.

(** *** The references written for apostrophes *)

Lemma prefix_other_head x p z e a b :
  x <> z -> String.prefix (String z e) a = true ->
  String.prefix (String x p) (a ++ b) = String.prefix (String x p) a.
Proof.
  intros Hxz Ha. destruct a as [| y a]; [discriminate |].
  cbn in Ha |- *. destruct (ascii_dec z y) as [<- |]; [| discriminate].
  destruct (ascii_dec x z); [contradiction | reflexivity].
Qed.

Lemma apos_ref_app a b :
  ampersands_escaped a = true ->
  count_occurrences apos_ref (a ++ b)
  = count_occurrences apos_ref a + count_occurrences apos_ref b.
Proof.
  intros Ha. induction a as [| c a IH]; [reflexivity |].
  cbn [ampersands_escaped] in Ha. apply andb_prop in Ha as [Hc Ha].
  cbn [append count_occurrences]. rewrite (IH Ha).
  assert (Hpre : String.prefix apos_ref (String c (a ++ b))
                 = String.prefix apos_ref (String c a)).
  { unfold apos_ref. cbn [String.prefix].
    destruct (ascii_dec "&" c) as [<- |]; [| reflexivity].
    change (Ascii.eqb "&" ch_amp) with true in Hc. cbv iota in Hc.
    apply existsb_exists in Hc as (e & He & Hpre).
    cbn in He.
    destruct He as [<- | [<- | [<- | [<- | [<- | []]]]]];
      try (eapply prefix_other_head; [| exact Hpre]; discriminate).
    rewrite Hpre. apply prefix_app. exact Hpre. }
  rewrite Hpre. lia.
Qed.

Lemma referenced_app a b n m :
  referenced a n -> referenced b m -> referenced (a ++ b) (n + m).
Proof.
  intros [Hn Ha] [Hm Hb]. split.
  - rewrite (apos_ref_app a b Ha). lia.
  - apply ampersands_escaped_app; assumption.
Qed.

Lemma referenced_eq out n m : referenced out n -> n = m -> referenced out m.
Proof. intros H <-. exact H. Qed.

Lemma referenced_escape_char c :
  referenced (escape_char c) (if Ascii.eqb c ch_apos then 1 else 0).
Proof.
  destruct c as [[] [] [] [] [] [] [] []]; vm_compute; auto.
Qed.

(** Escaped text holds one [&#x27;] per apostrophe of the text. *)
Lemma referenced_escape_chars s :
  referenced (escape_chars s) (count_char ch_apos s).
Proof.
  induction s as [| c s IH]; [split; reflexivity |].
  cbn [escape_chars count_char].
  exact (referenced_app _ _ _ _ (referenced_escape_char c) IH).
Qed.

Lemma spec_attribute_referenced k v :
  referenced (spec_attribute (k, PyStr v))
             (count_char ch_apos k + count_char ch_apos v).
Proof.
  assert (Hsp : referenced " " 0) by (split; reflexivity).
  assert (Heq : referenced "=" 0) by (split; reflexivity).
  assert (Hq : referenced dquote 0) by (split; reflexivity).
  pose proof (referenced_escape_chars k) as Hk.
  pose proof (referenced_escape_chars v) as Hv.
  unfold spec_attribute. cbn [fst snd].
  eapply referenced_eq.
  - exact (referenced_app _ _ _ _ Hsp
             (referenced_app _ _ _ _ Hk
                (referenced_app _ _ _ _ Heq
                   (referenced_app _ _ _ _ Hq
                      (referenced_app _ _ _ _ Hv Hq))))).
  - tally.
Qed.

Lemma attributes_referenced d :
  str_values d = true ->
  referenced (concat_strings (map spec_attribute d))
    (list_sum (map (fun kv => count_char ch_apos (fst kv)
                              + match snd kv with
                                | PyStr v => count_char ch_apos v
                                | _ => 0
                                end) d)).
Proof.
  induction d as [| [k v] d IH]; intros Hd; [split; reflexivity |].
  cbn in Hd. apply andb_prop in Hd as [Hv Hd].
  destruct v; try discriminate.
  cbn [concat_strings fold_right map list_sum fst snd].
  exact (referenced_app _ _ _ _ (spec_attribute_referenced k s) (IH Hd)).
Qed.

Lemma children_referenced l :
  forallb (fun c => is_str c || valid_tree c) l = true ->
  Forall (fun c => valid_tree c = true ->
                   referenced (spec_markup c) (content_apostrophes c)) l ->
  referenced (concat_strings (map spec_markup l))
             (list_sum (map content_apostrophes l)).
Proof.
  induction l as [| c l IHl]; intros Hl IH; [split; reflexivity |].
  cbn in Hl. apply andb_prop in Hl as [Hc Hl].
  inversion IH as [| ? ? IHc IHrest]; subst.
  cbn [concat_strings fold_right map list_sum].
  apply referenced_app; [| exact (IHl Hl IHrest)].
  destruct c; try discriminate.
  - apply referenced_escape_chars.
  - apply IHc. exact Hc.
Qed.

(** The markup of an Element Tree holds one [&#x27;] per apostrophe of its
    content. *)
Lemma spec_markup_referenced t :
  valid_tree t = true -> referenced (spec_markup t) (content_apostrophes t).
Proof.
  revert t. unfold valid_tree. apply tree_shape_ind.
  intros tag d l k Htag Hattrs _ Hl IH. fold valid_tree in Hl, IH.
  destruct tag as [| | | tag | | | |]; try discriminate.
  pose proof (attributes_referenced d Hattrs) as Hd.
  pose proof (children_referenced l Hl IH) as Hch.
  pose proof (referenced_escape_chars tag) as Htagref.
  assert (Hopen : referenced "<" 0) by (split; reflexivity).
  assert (Hclose : referenced ">" 0) by (split; reflexivity).
  assert (Hend : referenced "</" 0) by (split; reflexivity).
  cbn [spec_markup built content_apostrophes].
  eapply referenced_eq.
  - exact (referenced_app _ _ _ _ Hopen
             (referenced_app _ _ _ _ Htagref
                (referenced_app _ _ _ _ Hd
                   (referenced_app _ _ _ _ Hclose
                      (referenced_app _ _ _ _ Hch
                         (referenced_app _ _ _ _ Hend
                            (referenced_app _ _ _ _ Htagref Hclose))))))).
  - tally.
Qed.

(** C2 (escaping completeness): the markup of an Element Tree is its tags,
    attributes and children in their places with every character of a tag,
    an attribute key, an attribute value or a text child written by the
    table of references, in which [&] is [&amp;], [<] is [&lt;], [>] is
    [&gt;] and the double quote is [&quot;]; [escape] itself writes every
    text by that table.  So the markup holds two [<] and two [>] per element
    (those of its opening and closing tags) and two double quotes per
    attribute (those around its value), none that comes from the content;
    and it holds one ampersand per character [&], [<], [>], double quote or
    apostrophe of the content, each at the start of a character
    reference. *)
Theorem markup_has_no_raw_content t :
  valid_tree t = true ->
  exists out,
    _repr_html_ t = Ok out
    /\ count_char ch_lt out = 2 * count_nodes t
    /\ count_char ch_gt out = 2 * count_nodes t
    /\ count_char ch_quot out = 2 * count_attributes t
    /\ count_char ch_amp out = content_specials t
    /\ ampersands_escaped out = true
    /\ out = spec_markup t
    /\ (forall s, escape s = escape_chars s)
    /\ escape_char ch_amp = "&amp;"
    /\ escape_char ch_lt = "&lt;"
    /\ escape_char ch_gt = "&gt;"
    /\ escape_char ch_quot = "&quot;".
Proof.
  intros Ht.
  destruct (markup_accounted t Ht) as (out & Hout & Hl & Hg & Hq & Hm & _ & He).
  exists out. repeat (split; [assumption |]).
  split.
  - pose proof (markup_as_specified t Ht) as Hspec.
    rewrite Hout in Hspec. injection Hspec as ->. reflexivity.
  - split; [exact escape_charwise |].
    split; [| split; [| split]]; reflexivity.
Qed.

(** C10 (apostrophes): the markup of an Element Tree holds no apostrophe at
    all, and holds the reference [&#x27;] once for each apostrophe of its
    content (of a text child, an attribute value, an attribute key, and
    twice for one of the tag, written in the opening and the closing tag);
    [escape] writes [&#x27;] for each apostrophe of the text it is given. *)
Theorem markup_has_no_apostrophe t :
  valid_tree t = true ->
  (exists out,
      _repr_html_ t = Ok out
      /\ count_char ch_apos out = 0
      /\ count_occurrences apos_ref out = content_apostrophes t)
  /\ (forall s1 s2,
         escape (s1 ++ String ch_apos s2) = escape s1 ++ "&#x27;" ++ escape s2).
Proof.
  intros Ht. split.
  - destruct (markup_accounted t Ht) as (out & Hout & _ & _ & _ & _ & Ha & _).
    exists out. split; [exact Hout |]. split; [exact Ha |].
    pose proof (markup_as_specified t Ht) as Hspec.
    rewrite Hout in Hspec. injection Hspec as ->.
    apply (spec_markup_referenced t Ht).
  - intros s1 s2. rewrite escape_app, escape_cons. reflexivity.
Qed.

(** ** The structured form *)

Lemma to_dict_built tag attrs l k :
  to_dict (PyVDOM (built tag attrs l k))
  = (items <~ mapM_result to_dict_child l ;;
     Ok (PyDict ([("tagName", tag); ("attributes", attrs)]
                 ++ (if py_truthy k then [("key", k)] else [])
                 ++ [("children", PyList items)])%list)).
Proof. reflexivity. Qed.

Lemma to_dict_child_converted c item :
  to_dict_child c = Ok item <-> converted_child c item.
Proof.
  unfold converted_child, to_dict_child.
  destruct c; cbn [is_VDOM]; try tauto;
    split; intros H; inversion H; reflexivity.
Qed.

Lemma to_dict_children_total l :
  forallb (fun c => is_str c || constructed c) l = true ->
  Forall (fun c => constructed c = true -> exists d, to_dict c = Ok (PyDict d))
         l ->
  exists items, mapM_result to_dict_child l = Ok items
                /\ Forall2 converted_child l items.
Proof.
  intros Hl IH.
  destruct (mapM_result_total to_dict_child
              (fun c => (is_str c || constructed c = true)
                        /\ (constructed c = true ->
                            exists d, to_dict c = Ok (PyDict d))) l)
    as (items & Hitems & HF).
  - rewrite forallb_forall in Hl. rewrite Forall_forall in *.
    intros c Hc. split; auto.
  - intros c [Hc IHc]. destruct c; cbn in Hc; try discriminate; cbn; eauto.
    destruct (IHc Hc) as [d Hd]. eauto.
  - exists items. split; [exact Hitems |].
    eapply Forall2_impl; [| exact HF].
    intros c item. apply to_dict_child_converted.
Qed.

Lemma to_dict_constructed v :
  constructed v = true -> exists d, to_dict v = Ok (PyDict d).
Proof.
  revert v. unfold constructed. apply tree_shape_ind.
  intros tag d l k _ _ _ Hl IH.
  destruct (to_dict_children_total l Hl IH) as (items & Hitems & _).
  rewrite to_dict_built, Hitems. cbn. eauto.
Qed.

(** C6 (structured form), as the code has it: [to_dict] of a constructed
    tree is a mapping that always has ['tagName'], ['attributes'] (the
    attribute mapping, empty or not) and ['children'] (a list with one entry
    per child: an element converted by its own [to_dict], a text child
    unchanged); it has ['key'] exactly when the key is true in the sense of
    Python, that is present and not the empty string, and then with the key
    as its value. *)
Theorem to_dict_mapping tag attrs l k :
  constructed (PyVDOM (built tag (PyDict attrs) l k)) = true ->
  exists d items,
    to_dict (PyVDOM (built tag (PyDict attrs) l k)) = Ok (PyDict d)
    /\ dict_lookup "tagName" d = Some tag
    /\ dict_lookup "attributes" d = Some (PyDict attrs)
    /\ dict_lookup "children" d = Some (PyList items)
    /\ Forall2 converted_child l items
    /\ dict_mem "key" d = py_truthy k
    /\ (py_truthy k = true -> dict_lookup "key" d = Some k).
Proof.
  intros Hv.
  assert (Hl : forallb (fun c => is_str c || constructed c) l = true).
  { unfold constructed in Hv. cbn in Hv. exact Hv. }
  destruct (to_dict_children_total l Hl) as (items & Hitems & HF).
  { rewrite Forall_forall. intros c _. apply to_dict_constructed. }
  rewrite to_dict_built, Hitems. cbn [rbind].
  eexists. exists items. split; [reflexivity |].
  destruct (py_truthy k); cbn; repeat split; auto; discriminate.
Qed.

(** ** Freezing *)

Lemma frozen_setattr self attr value :
  is_frozen self = true ->
  __setattr__ self attr value
  = (self, Err (Raise AttributeError (Some immutable_msg))).
Proof. intros H. unfold __setattr__. rewrite H. reflexivity. Qed.

Lemma assign_ok_inv self attr value ws self' :
  assign self attr value = (ws, Ok self') ->
  is_frozen self = false /\ object_setattr self attr value = Ok self'
  /\ ws = [].
Proof.
  unfold assign, __setattr__.
  destruct (is_frozen self); [discriminate |].
  destruct (object_setattr self attr value); [| discriminate].
  intros H. inversion H. auto.
Qed.

Lemma assign_unfrozen self attr value self' :
  is_frozen self = false ->
  object_setattr self attr value = Ok self' ->
  assign self attr value = ret self'.
Proof.
  intros Hf Hs. unfold assign, __setattr__. rewrite Hf, Hs. reflexivity.
Qed.

Section CoreFacts.

Context {env : Environment}.

(** Whatever [__init__] returns normally is frozen. *)
Lemma init_fields_freezes self t a c k schema ws self' :
  init_fields self t a c k schema = (ws, Ok self') ->
  is_frozen self' = true.
Proof.
  unfold init_fields. intros H.
  repeat (apply bind_ok_inv in H as (? & ? & ? & _ & H & _)).
  match type of H with
  | (if ?b then _ else _) = _ => destruct b; [discriminate |]
  end.
  apply bind_ok_inv in H as (? & s5 & ? & Hfr & H & _).
  apply assign_ok_inv in Hfr as (_ & Hfr & _).
  assert (Hs5 : is_frozen s5 = true).
  { match type of Hfr with
    | object_setattr ?s _ _ = _ => destruct s
    end.
    simpl in Hfr. inversion Hfr. reflexivity. }
  destruct schema;
    try (apply bind_ok_inv in H as (? & ? & ? & _ & H & _));
    inversion H; subst; exact Hs5.
Qed.

Lemma init_freezes fd self t a c k schema ws self' :
  __init__ fd self t a c k schema = (ws, Ok self') ->
  is_frozen self' = true.
Proof.
  unfold __init__. intros H.
  apply bind_ok_inv in H as (ws1 & [[[t' a'] c'] k'] & ws2 & _ & H & _).
  eapply init_fields_freezes. exact H.
Qed.

(** *** The constructor on a plain tag *)

Lemma tuple_of_children_inv c tp :
  tuple_of_children c = Ok tp -> exists l, tp = PyTuple l.
Proof.
  unfold tuple_of_children, py_tuple.
  destruct (py_truthy c).
  - destruct (py_iter c) as [l | e]; simpl; intros H; inversion H; eauto.
  - intros H; inversion H; eauto.
Qed.

Lemma frozen_attributes_inv a fdv :
  frozen_attributes a = Ok fdv -> exists d, fdv = PyDict d.
Proof.
  unfold frozen_attributes, FrozenDict.
  destruct (py_truthy a).
  - destruct a; try (destruct (dict_of_iterable _); simpl);
      intros H; inversion H; eauto.
  - intros H; inversion H; eauto.
Qed.

Lemma init_fields_new t a c k schema fdv l :
  frozen_attributes a = Ok fdv ->
  tuple_of_children c = Ok (PyTuple l) ->
  init_fields new_object t a c k schema
  = if forallb is_child l then
      match schema with
      | PyNone => ret (built t fdv l k)
      | _ => VDOM_validate (built t fdv l k) schema ;;; ret (built t fdv l k)
      end
    else raise (Raise ValueError (Some children_msg)).
Proof.
  intros Ha Hc. unfold init_fields.
  cbn -[VDOM_validate]. rewrite Ha. cbn -[VDOM_validate]. rewrite Hc.
  cbn -[VDOM_validate].
  destruct (forallb is_child l); cbn -[VDOM_validate]; [| reflexivity].
  fold (built t fdv l k).
  destruct schema; try reflexivity;
    match goal with
    | |- context [VDOM_validate _ ?sc] =>
        destruct (VDOM_validate (built t fdv l k) sc) as [ws [[] | e]]
    end; cbn; rewrite ?app_nil_r; reflexivity.
Qed.

Lemma init_fields_bad_attributes t a c k schema e :
  frozen_attributes a = Err e ->
  init_fields new_object t a c k schema = raise e.
Proof.
  intros Ha. unfold init_fields. cbn. rewrite Ha. reflexivity.
Qed.

Lemma init_fields_bad_children t a c k schema fdv e :
  frozen_attributes a = Ok fdv ->
  tuple_of_children c = Err e ->
  init_fields new_object t a c k schema = raise e.
Proof.
  intros Ha Hc. unfold init_fields. cbn. rewrite Ha. cbn. rewrite Hc.
  reflexivity.
Qed.

Lemma init_of_plain fd t a c k schema :
  is_dict t || is_list t = false ->
  __init__ fd new_object t a c k schema
  = init_fields new_object t a c k schema.
Proof.
  intros Ht. unfold __init__, legacy_arguments. rewrite Ht, bind_ret.
  reflexivity.
Qed.

Lemma init_plain fd t a c k schema fdv l :
  is_dict t || is_list t = false ->
  frozen_attributes a = Ok fdv ->
  tuple_of_children c = Ok (PyTuple l) ->
  __init__ fd new_object t a c k schema
  = if forallb is_child l then
      match schema with
      | PyNone => ret (built t fdv l k)
      | _ => VDOM_validate (built t fdv l k) schema ;;; ret (built t fdv l k)
      end
    else raise (Raise ValueError (Some children_msg)).
Proof.
  intros Ht Ha Hc. rewrite init_of_plain by exact Ht.
  apply init_fields_new; assumption.
Qed.

Lemma init_plain_bad_attributes fd t a c k schema e :
  is_dict t || is_list t = false ->
  frozen_attributes a = Err e ->
  __init__ fd new_object t a c k schema = raise e.
Proof.
  intros Ht Ha. rewrite init_of_plain by exact Ht.
  apply init_fields_bad_attributes. exact Ha.
Qed.

Lemma tuple_of_members c l :
  c = PyList l \/ c = PyTuple l ->
  tuple_of_children c = Ok (PyTuple l).
Proof.
  intros [-> | ->]; destruct l; reflexivity.
Qed.

Lemma frozen_attributes_mapping a :
  py_truthy a = false \/ is_dict a = true ->
  exists d, frozen_attributes a = Ok (PyDict d).
Proof.
  unfold frozen_attributes. intros [H | H].
  - rewrite H. simpl. eauto.
  - destruct a; try discriminate. destruct (py_truthy _); simpl; eauto.
Qed.

(** C3 (immutability): on an object handed out by the constructor, every
    assignment [self.attr = value], whatever the name and the value, raises
    [AttributeError("Cannot change attribute of immutable object")] and
    leaves the object (tag_name, attributes, children, key and the frozen
    mark) as it was. *)
Theorem setattr_on_constructed_raises t a c k schema ws self attr value :
  VDOM t a c k schema = (ws, Ok (PyVDOM self)) ->
  __setattr__ self attr value
  = (self, Err (Raise AttributeError (Some immutable_msg))).
Proof.
  unfold VDOM, VDOM_call. intros H.
  apply bind_ok_inv in H as (ws1 & s & ws2 & Hinit & Hret & _).
  inversion Hret; subst.
  apply frozen_setattr. eapply init_freezes. exact Hinit.
Qed.

(** C4 (child-type enforcement), as the code has it: when the tag is not a
    structured value and some member of the children list or tuple is
    neither a string nor a VDOM, the constructor raises and hands out no
    object; the exception is the one raised while converting the
    attributes if that fails, and otherwise
    [ValueError("Children must be a list of VDOM objects or strings")],
    in particular whenever the attributes are absent, empty or a mapping.
    [ValueError] is not a [TypeError]. *)
Theorem bad_child_raises_ValueError t a c k schema l :
  is_dict t || is_list t = false ->
  c = PyList l \/ c = PyTuple l ->
  forallb is_child l = false ->
  VDOM t a c k schema
  = raise (match frozen_attributes a with
           | Ok _ => Raise ValueError (Some children_msg)
           | Err e => e
           end)
  /\ (py_truthy a = false \/ is_dict a = true ->
      VDOM t a c k schema = raise (Raise ValueError (Some children_msg)))
  /\ issubclass ValueError TypeError = false.
Proof.
  intros Ht Hc Hbad.
  assert (Heq : VDOM t a c k schema
                = raise (match frozen_attributes a with
                         | Ok _ => Raise ValueError (Some children_msg)
                         | Err e => e
                         end)).
  { unfold VDOM, VDOM_call.
    destruct (frozen_attributes a) as [fdv | e] eqn:Ha.
    - erewrite init_plain;
        [| exact Ht | exact Ha | exact (tuple_of_members _ _ Hc)].
      rewrite Hbad. reflexivity.
    - erewrite init_plain_bad_attributes; [| exact Ht | exact Ha].
      reflexivity. }
  split; [exact Heq |]. split; [| reflexivity].
  intros Ha. rewrite Heq.
  destruct (frozen_attributes_mapping _ Ha) as [d ->]. reflexivity.
Qed.

(** *** Decoding *)

Lemma from_dict_dict d :
  from_dict (PyDict d)
  = (checked_validate (PyDict d) VDOM_SCHEMA ;;;
     dict_find "tagName"
       (fun tag =>
          cs <- dict_find "children" from_dict_children (ret []) d ;;
          VDOM_call from_dict tag (dict_get "attributes" (PyDict []) d)
                    (PyList cs) (dict_get "key" PyNone d) PyNone)
       (raise (Raise KeyError None)) d).
Proof. reflexivity. Qed.

Lemma from_dict_invalid v :
  validate v VDOM_SCHEMA = false ->
  from_dict v = raise (Raise ValidationError None).
Proof.
  intros H. destruct v; cbn; unfold checked_validate; rewrite H; reflexivity.
Qed.

Lemma mapM_ret {A B} (f : A -> M B) items l :
  Forall2 (fun item c => f item = ret c) items l ->
  mapM f items = ret l.
Proof.
  induction 1 as [| item c items l Hc _ IH]; [reflexivity |].
  cbn. rewrite Hc.
  change ((fix go (l0 : list A) : M (list B) :=
             match l0 with
             | [] => ret []
             | a :: l' => b <- f a;; bs <- go l';; ret (b :: bs)
             end) items) with (mapM f items).
  rewrite IH. reflexivity.
Qed.

Lemma frozen_attributes_dict d :
  frozen_attributes (PyDict d) = Ok (PyDict d).
Proof. destruct d; reflexivity. Qed.

Lemma to_dict_is_dict v d : to_dict v = Ok d -> is_dict d = true.
Proof.
  destruct v; try discriminate. destruct self as [t a c k f]. cbn.
  destruct t, a, k, c; try discriminate. cbn.
  match goal with |- (items <~ ?e ;; _) = _ -> _ => destruct e end;
    cbn; intros H; inversion H; reflexivity.
Qed.

Lemma keyed_children_are_children (l : list pyval) :
  forallb (fun c => is_str c || keyed_tree c) l = true ->
  forallb is_child l = true.
Proof.
  intros H. rewrite forallb_forall in *. intros c Hc.
  specialize (H c Hc). unfold is_child.
  destruct c; try discriminate; try reflexivity.
Qed.

(** C1 (round trip), as the code has it: for an Element Tree (tag a
    string, attributes from strings to strings, children text or Element
    Trees) in which every key is absent or a non-empty string, and a
    schema that accepts the structured form of such trees, [to_dict]
    returns a mapping and [from_dict] of it returns, without warning, a
    tree with the same tag, attributes, children (recursively) and key. *)
Theorem from_dict_to_dict t :
  (forall t' d, keyed_tree t' = true -> to_dict t' = Ok d ->
                validate d VDOM_SCHEMA = true) ->
  keyed_tree t = true ->
  exists d, to_dict t = Ok d /\ from_dict d = ([], Ok t).
Proof.
  intros Hschema. revert t. unfold keyed_tree.
  apply tree_shape_ind.
  intros tag d l k Htag Hattrs Hkey Hl IH.
  fold keyed_tree in Hl, IH.
  assert (Hnode : keyed_tree (PyVDOM (built tag (PyDict d) l k)) = true).
  { unfold keyed_tree. cbn. rewrite Htag, Hattrs, Hkey. exact Hl. }
  destruct tag as [| | | tag | | | |]; try discriminate.
  (* the members, converted and read back *)
  assert (Hitems : exists items,
             mapM_result to_dict_child l = Ok items
             /\ Forall2 (fun item c => from_dict_child item = ret c)
                        items l).
  { clear Hnode. induction l as [| c l IHl].
    - exists []. split; [reflexivity | constructor].
    - cbn in Hl. apply andb_prop in Hl as [Hc Hl].
      inversion IH as [| ? ? IHc IHrest]; subst.
      destruct (IHl Hl IHrest) as (items & Hitems & HF).
      destruct c; try discriminate.
      + (* a text child *)
        exists (PyStr s :: items). cbn.
        change ((fix go (l0 : list pyval) : result (list pyval) :=
                   match l0 with
                   | [] => Ok []
                   | a :: l' =>
                       b <~ to_dict_child a;; bs <~ go l';; Ok (b :: bs)
                   end) l) with (mapM_result to_dict_child l).
        rewrite Hitems. split; [reflexivity |].
        constructor; [reflexivity | exact HF].
      + (* an element child *)
        destruct (IHc Hc) as (dc & Hdc & Hback).
        exists (dc :: items). cbn [mapM_result to_dict_child].
        rewrite Hdc. cbn [rbind].
        change ((fix go (l0 : list pyval) : result (list pyval) :=
                   match l0 with
                   | [] => Ok []
                   | a :: l' =>
                       b <~ to_dict_child a;; bs <~ go l';; Ok (b :: bs)
                   end) l) with (mapM_result to_dict_child l).
        rewrite Hitems. split; [reflexivity |].
        constructor; [| exact HF].
        pose proof (to_dict_is_dict _ _ Hdc) as Hisd.
        destruct dc; try discriminate. cbn [from_dict_child].
        exact Hback. }
  destruct Hitems as (items & Hitems & Hback).
  rewrite to_dict_built, Hitems. cbn [rbind].
  eexists. split; [reflexivity |].
  assert (Hvalid := fun d' => Hschema _ d' Hnode).
  rewrite to_dict_built, Hitems in Hvalid. cbn [rbind] in Hvalid.
  specialize (Hvalid _ eq_refl).
  rewrite from_dict_dict. unfold checked_validate. rewrite Hvalid.
  rewrite bind_ret.
  assert (Hcall : VDOM_call from_dict (PyStr tag) (PyDict d) (PyList l) k
                            PyNone
                  = ret (PyVDOM (built (PyStr tag) (PyDict d) l k))).
  { unfold VDOM_call.
    erewrite init_plain;
      [| reflexivity | apply frozen_attributes_dict
       | apply tuple_of_members; left; reflexivity].
    rewrite (keyed_children_are_children _ Hl). reflexivity. }
  destruct k as [| | | key | | | |]; try discriminate.
  - cbn. cbn in Hback. rewrite (mapM_ret _ _ _ Hback), bind_ret.
    exact Hcall.
  - cbn in Hkey. cbn [py_truthy]. rewrite Hkey.
    cbn. cbn in Hback. rewrite (mapM_ret _ _ _ Hback), bind_ret.
    exact Hcall.
Qed.

(** C7 (validation gate): [from_dict] validates its argument against
    [VDOM_SCHEMA] before anything else; when the validation fails it raises
    [ValidationError], having emitted nothing and built nothing.  With a
    schema that rejects the mappings without ['tagName'], that is the
    outcome for every such mapping. *)
Theorem from_dict_validates_first :
  (forall d, dict_mem "tagName" d = false ->
             validate (PyDict d) VDOM_SCHEMA = false) ->
  (forall v, validate v VDOM_SCHEMA = false ->
             from_dict v = ([], Err (Raise ValidationError None)))
  /\ (forall d, dict_mem "tagName" d = false ->
                from_dict (PyDict d) = ([], Err (Raise ValidationError None))).
Proof.
  intros Hschema. split.
  - intros v Hv. apply from_dict_invalid. exact Hv.
  - intros d Hd. apply from_dict_invalid. apply Hschema. exact Hd.
Qed.

(** *** The backwards compatible interface *)

Lemma init_fields_ok_inv t a c k schema ws self :
  init_fields new_object t a c k schema = (ws, Ok self) ->
  exists d l,
    frozen_attributes a = Ok (PyDict d)
    /\ tuple_of_children c = Ok (PyTuple l)
    /\ forallb is_child l = true
    /\ self = built t (PyDict d) l k.
Proof.
  intros H.
  destruct (frozen_attributes a) as [fdv | e] eqn:Ha.
  2:{ rewrite (init_fields_bad_attributes _ _ _ _ _ _ Ha) in H.
      discriminate. }
  destruct (frozen_attributes_inv _ _ Ha) as [d ->].
  destruct (tuple_of_children c) as [tp | e] eqn:Hc.
  2:{ rewrite (init_fields_bad_children _ _ _ _ _ _ _ Ha Hc) in H.
      discriminate. }
  destruct (tuple_of_children_inv _ _ Hc) as [l ->].
  rewrite (init_fields_new _ _ _ _ _ _ _ Ha Hc) in H.
  exists d, l. destruct (forallb is_child l); [| discriminate].
  repeat split.
  destruct schema;
    try (apply bind_ok_inv in H as (? & ? & ? & _ & H & _));
    inversion H; reflexivity.
Qed.

Lemma VDOM_call_shape fd t a c k schema ws v :
  VDOM_call fd t a c k schema = (ws, Ok v) ->
  exists tag d l key,
    v = PyVDOM (built tag (PyDict d) l key) /\ forallb is_child l = true.
Proof.
  unfold VDOM_call, __init__. intros H.
  apply bind_ok_inv in H as (? & self & ? & H & Hret & _).
  inversion Hret; subst.
  apply bind_ok_inv in H as (? & [[[t' a'] c'] k'] & ? & _ & H & _).
  apply init_fields_ok_inv in H as (d & l & _ & _ & Hl & ->).
  exists t', d, l, k'. auto.
Qed.

Lemma dict_find_ok_inv {A} k (found : pyval -> M A) e d ws x :
  dict_find k found (raise e) d = (ws, Ok x) ->
  exists v, found v = (ws, Ok x).
Proof.
  induction d as [| [k' v] d IH]; cbn; [discriminate |].
  destruct (String.eqb k k'); eauto.
Qed.

Lemma from_dict_shape value ws v :
  from_dict value = (ws, Ok v) ->
  exists tag d l key,
    v = PyVDOM (built tag (PyDict d) l key) /\ forallb is_child l = true.
Proof.
  intros H.
  destruct value;
    try (cbn in H;
         apply bind_ok_inv in H as (? & ? & ? & _ & H & _); discriminate).
  rewrite from_dict_dict in H.
  apply bind_ok_inv in H as (? & ? & ? & _ & H & _).
  apply dict_find_ok_inv in H as [tag H].
  apply bind_ok_inv in H as (? & ? & ? & _ & H & _).
  eapply VDOM_call_shape. exact H.
Qed.

Lemma VDOM_validate_silent self schema : fst (VDOM_validate self schema) = [].
Proof.
  unfold VDOM_validate, checked_validate.
  destruct (to_dict (PyVDOM self)) as [d | e]; [| reflexivity].
  rewrite bind_lift_ok. destruct (validate d schema); reflexivity.
Qed.

(** The constructor given a structured value [v] for the tag, once
    [from_dict v] is known to return. *)
Lemma VDOM_of_structure v a c k schema ws tag d l key :
  is_dict v || is_list v = true ->
  from_dict v = (ws, Ok (PyVDOM (built tag (PyDict d) l key))) ->
  forallb is_child l = true ->
  VDOM v a c k schema
  = (deprecated_msg :: ws,
     match schema with
     | PyNone => Ok (PyVDOM (built tag (PyDict d) l key))
     | _ =>
         match snd (VDOM_validate (built tag (PyDict d) l key) schema) with
         | Ok _ => Ok (PyVDOM (built tag (PyDict d) l key))
         | Err e => Err e
         end
     end).
Proof.
  intros Hv Hfd Hl.
  unfold VDOM, VDOM_call, __init__, legacy_arguments. rewrite Hv.
  cbn [warn bind app]. rewrite Hfd.
  cbn -[init_fields VDOM_validate].
  rewrite (init_fields_new _ _ _ _ schema _ l (frozen_attributes_dict d)
             (tuple_of_members (PyTuple l) l (or_intror eq_refl))).
  rewrite Hl.
  destruct schema; cbn -[VDOM_validate]; rewrite ?app_nil_r;
    try reflexivity;
    match goal with
    | |- context [VDOM_validate ?s ?sc] =>
        pose proof (VDOM_validate_silent s sc) as Hsilent;
        destruct (VDOM_validate s sc) as [ws2 [[] | e]]
    end; cbn in Hsilent; subst; cbn; rewrite ?app_nil_r; reflexivity.
Qed.

(** C9 (legacy adapter): the constructor given a dict or a list [v] in
    place of the tag name emits the deprecation warning and runs
    [from_dict v], which validates [v] against [VDOM_SCHEMA] first: when
    the validation fails the constructor raises [ValidationError]; without
    [schema] argument its warnings are the deprecation warning followed by
    those of [from_dict v] and its outcome is that of [from_dict v], error
    or tree; and whenever it returns a tree (with any [schema] argument),
    that tree is the one [from_dict v] returns. *)
Theorem legacy_adapter v a c k schema :
  is_dict v || is_list v = true ->
  (validate v VDOM_SCHEMA = false ->
   VDOM v a c k schema
   = ([deprecated_msg], Err (Raise ValidationError None)))
  /\ VDOM v a c k PyNone
     = (deprecated_msg :: fst (from_dict v), snd (from_dict v))
  /\ (forall ws t,
         VDOM v a c k schema = (ws, Ok t) ->
         exists ws', ws = deprecated_msg :: ws'
                     /\ from_dict v = (ws', Ok t)).
Proof.
  intros Hv.
  assert (Herr : forall sc ws e,
             from_dict v = (ws, Err e) ->
             VDOM v a c k sc = (deprecated_msg :: ws, Err e)).
  { intros sc ws e Hfd.
    unfold VDOM, VDOM_call, __init__, legacy_arguments. rewrite Hv.
    cbn [warn bind app]. rewrite Hfd. reflexivity. }
  split; [| split].
  - intros Hinvalid. apply Herr. apply from_dict_invalid. exact Hinvalid.
  - destruct (from_dict v) as [ws [obj | e]] eqn:Hfd.
    + destruct (from_dict_shape _ _ _ Hfd) as (tag & d & l & key & -> & Hl).
      rewrite (VDOM_of_structure _ a c k PyNone _ _ _ _ _ Hv Hfd Hl).
      reflexivity.
    + rewrite (Herr PyNone _ _ eq_refl). reflexivity.
  - intros ws t H.
    destruct (from_dict v) as [ws1 [obj | e]] eqn:Hfd.
    + destruct (from_dict_shape _ _ _ Hfd) as (tag & d & l & key & -> & Hl).
      rewrite (VDOM_of_structure _ a c k schema _ _ _ _ _ Hv Hfd Hl) in H.
      exists ws1.
      assert (Ht : t = PyVDOM (built tag (PyDict d) l key)).
      { destruct schema;
          try match type of H with
              | context [VDOM_validate ?s ?sc] =>
                  destruct (snd (VDOM_validate s sc))
              end;
          congruence. }
      subst t. split; [congruence | reflexivity].
    + rewrite (Herr schema _ _ eq_refl) in H. discriminate.
Qed.

(** *** The component factory *)

(** The constructor called as the factory calls it: a string for the tag,
    no key, no schema. *)
Lemma VDOM_of_tag tag a c l :
  tuple_of_children c = Ok (PyTuple l) ->
  VDOM (PyStr tag) a c PyNone PyNone
  = match frozen_attributes a with
    | Err e => raise e
    | Ok fdv =>
        if forallb is_child l
        then ret (PyVDOM (built (PyStr tag) fdv l PyNone))
        else raise (Raise ValueError (Some children_msg))
    end.
Proof.
  intros Hc. unfold VDOM, VDOM_call.
  destruct (frozen_attributes a) as [fdv | e] eqn:Ha.
  - erewrite init_plain; [| reflexivity | exact Ha | exact Hc].
    destruct (forallb is_child l); reflexivity.
  - erewrite init_plain_bad_attributes; [| reflexivity | exact Ha].
    reflexivity.
Qed.

Lemma tuple_of_falsy c :
  py_truthy c = false -> tuple_of_children c = Ok (PyTuple []).
Proof. intros H. unfold tuple_of_children. rewrite H. reflexivity. Qed.

(** C5 (children flattening), as the code has it: the sequence that is
    flattened is a list, and only a list.  A call of a component without
    the ['children'] keyword builds its tree from the members of the list
    when the positional arguments are exactly one list, and from the
    positional arguments themselves otherwise (none, one that is not a
    list, be it a tuple or a string, two or more).  It returns that tree
    when the attributes convert and every child is a string or a VDOM. *)
Theorem component_children tag args kwargs :
  dict_mem "children" kwargs = false ->
  let resolved := match args with [PyList l] => l | _ => args end in
  create_component tag true args kwargs
  = match frozen_attributes (resolve_attributes kwargs) with
    | Err e => raise e
    | Ok fdv =>
        if forallb is_child resolved
        then ret (PyVDOM (built (PyStr tag) fdv resolved PyNone))
        else raise (Raise ValueError (Some children_msg))
    end.
Proof.
  intros Hkw resolved. unfold create_component, resolve_children.
  rewrite Hkw.
  assert (Hres : (match args with
                  | [PyList l] => (PyTuple l, kwargs)
                  | _ => (PyTuple args, kwargs)
                  end) = (PyTuple resolved, kwargs)).
  { subst resolved. destruct args as [| [] []]; reflexivity. }
  rewrite Hres. cbn [negb andb].
  apply VDOM_of_tag. apply tuple_of_members. right. reflexivity.
Qed.

Lemma childless_component_outcome tag args kwargs :
  create_component tag false args kwargs
  = (let '(children_, kwargs') := resolve_children args kwargs in
     if py_truthy children_ then
       raise (Raise ValueError
                (Some ("<" ++ tag ++ " /> cannot have children")))
     else
       match frozen_attributes (resolve_attributes kwargs') with
       | Err e => raise e
       | Ok fdv => ret (PyVDOM (built (PyStr tag) fdv [] PyNone))
       end).
Proof.
  unfold create_component.
  destruct (resolve_children args kwargs) as [children_ kwargs'].
  cbn [negb andb]. destruct (py_truthy children_) eqn:Hc; [reflexivity |].
  rewrite (VDOM_of_tag _ _ _ [] (tuple_of_falsy _ Hc)).
  destruct (frozen_attributes _); reflexivity.
Qed.

(** C8 (components without children): a call of a component made with
    [allow_children=False] raises
    [ValueError("<tag /> cannot have children")], the tag of the component
    in its message, when the children it resolves to are non-empty, and
    nothing is built; when they are empty it goes on to build the tree with
    no child, which fails only if the attributes do not convert.  Called
    with keyword arguments only, none of them ['children'] or
    ['attributes'], it returns the tree of that tag with these attributes
    and no child. *)
Theorem childless_component tag args kwargs :
  create_component tag false args kwargs
  = (let '(children_, kwargs') := resolve_children args kwargs in
     if py_truthy children_ then
       raise (Raise ValueError
                (Some ("<" ++ tag ++ " /> cannot have children")))
     else
       match frozen_attributes (resolve_attributes kwargs') with
       | Err e => raise e
       | Ok fdv => ret (PyVDOM (built (PyStr tag) fdv [] PyNone))
       end)
  /\ (dict_mem "children" kwargs = false ->
      dict_mem "attributes" kwargs = false ->
      create_component tag false [] kwargs
      = ret (PyVDOM (built (PyStr tag) (PyDict kwargs) [] PyNone))).
Proof.
  split; [apply childless_component_outcome |].
  intros Hc Ha. rewrite childless_component_outcome.
  unfold resolve_children, resolve_attributes. rewrite Hc. cbn [py_truthy].
  rewrite Ha, frozen_attributes_dict. reflexivity.
Qed.

(** *** Every object handed out is frozen *)

Lemma from_dict_result_frozen value ws self attr v :
  from_dict value = (ws, Ok (PyVDOM self)) ->
  __setattr__ self attr v
  = (self, Err (Raise AttributeError (Some immutable_msg))).
Proof.
  intros H.
  destruct (from_dict_shape _ _ _ H) as (tag & d & l & k & Heq & _).
  inversion Heq; subst. reflexivity.
Qed.

End CoreFacts.

(* ================================================================= *)
(** ** The code in the concrete environment *)

Lemma dict_find_missing {R} k (found : pyval -> R) (missing : R) d :
  dict_mem k d = false -> dict_find k found missing d = missing.
Proof.
  induction d as [| [k' v] d IH]; [reflexivity |].
  cbn. destruct (String.eqb k k'); [discriminate | exact IH].
Qed.

Lemma wire_format_requires_tagName d :
  dict_mem "tagName" d = false -> validate_v1 (PyDict d) schema_v1 = false.
Proof.
  intros H. cbn. rewrite (dict_find_missing _ _ _ _ H). reflexivity.
Qed.

Lemma wire_format_of_children l :
  forallb (fun c => is_str c || valid_tree c) l = true ->
  Forall (fun c => valid_tree c = true ->
                   forall d, to_dict c = Ok d -> wire_format_ok d = true) l ->
  forall items,
    mapM_result to_dict_child l = Ok items ->
    forallb (fun x => is_str x || wire_format_ok x) items = true.
Proof.
  induction l as [| c l IHl]; intros Hl IH items Hitems.
  - inversion Hitems. reflexivity.
  - cbn in Hl. apply andb_prop in Hl as [Hc Hl].
    inversion IH as [| ? ? IHc IHrest]; subst.
    rewrite mapM_result_cons in Hitems.
    destruct (to_dict_child c) as [item | e] eqn:Hitem; [| discriminate].
    destruct (mapM_result to_dict_child l) as [rest | e]; [| discriminate].
    cbn in Hitems. inversion Hitems; subst. cbn [forallb].
    rewrite (IHl Hl IHrest rest eq_refl), andb_true_r.
    destruct c; try discriminate.
    + inversion Hitem. reflexivity.
    + cbn [to_dict_child] in Hitem. rewrite (IHc Hc _ Hitem).
      apply orb_true_r.
Qed.

(** The schema modelled from the spec accepts the structured form of every
    Element Tree. *)
Lemma wire_format_of_tree t :
  valid_tree t = true ->
  forall d, to_dict t = Ok d -> wire_format_ok d = true.
Proof.
  revert t. unfold valid_tree.
  apply (tree_shape_ind _ _ _
           (fun t => forall d, to_dict t = Ok d -> wire_format_ok d = true)).
  intros tag ad l k Htag Hattrs Hkey Hl IH d Hd. fold valid_tree in Hl, IH.
  rewrite to_dict_built in Hd.
  destruct (mapM_result to_dict_child l) as [items | e] eqn:Hitems;
    [| discriminate].
  pose proof (wire_format_of_children l Hl IH items Hitems) as Hch.
  cbn [rbind] in Hd. inversion Hd; subst. clear Hd.
  destruct tag; try discriminate.
  unfold str_values in Hattrs.
  destruct k; try discriminate; cbn [py_truthy].
  - cbn. rewrite Hattrs, Hch. reflexivity.
  - destruct (negb (s0 =? "")%string); cbn; rewrite Hattrs, Hch; reflexivity.
Qed.

Lemma keyed_tree_valid t : keyed_tree t = true -> valid_tree t = true.
Proof.
  revert t. unfold keyed_tree. apply tree_shape_ind.
  intros tag d l k Htag Hattrs Hkey Hl IH.
  unfold valid_tree. cbn. rewrite Htag, Hattrs. cbn.
  assert (Hk : optional_key k = true) by (destruct k; auto; discriminate).
  rewrite Hk. cbn.
  rewrite forallb_forall in *. rewrite Forall_forall in IH.
  intros c Hc. specialize (Hl c Hc). specialize (IH c Hc).
  apply orb_prop in Hl as [Hs | Ht]; [rewrite Hs; reflexivity |].
  fold valid_tree. rewrite (IH Ht). apply orb_true_r.
Qed.

Lemma schema_v1_accepts_trees t d :
  keyed_tree t = true -> to_dict t = Ok d ->
  validate (Environment := env_v1) d VDOM_SCHEMA = true.
Proof.
  intros Ht Hd. cbn. apply (wire_format_of_tree t); [| exact Hd].
  apply keyed_tree_valid. exact Ht.
Qed.

(** *** The theorems at work *)

Lemma from_dict_to_dict_witness :
  keyed_tree link_tree = true
  /\ exists d, to_dict link_tree = Ok d
               /\ from_dict (env := env_v1) d = ([], Ok link_tree).
Proof.
  split; [reflexivity |].
  apply (@from_dict_to_dict env_v1 link_tree);
    [exact schema_v1_accepts_trees | reflexivity].
Defined.

(** C1 as stated fails: the tree built by [VDOM('div', key='')] is an
    Element Tree, its structured form has no ['key'], and [from_dict] of that
    form returns a tree whose key is [None], not the empty string. *)
Lemma round_trip_loses_empty_key :
  VDOM (env := env_v1) (PyStr "div") PyNone PyNone (PyStr "") PyNone
  = ([], Ok empty_key_tree)
  /\ valid_tree empty_key_tree = true
  /\ to_dict empty_key_tree
     = Ok (PyDict [("tagName", PyStr "div"); ("attributes", PyDict []);
                   ("children", PyList [])])
  /\ from_dict (env := env_v1)
       (PyDict [("tagName", PyStr "div"); ("attributes", PyDict []);
                ("children", PyList [])])
     = ([], Ok (leaf "div"))
  /\ getattr (@key pyval) empty_key_tree = Ok (PyStr "")
  /\ getattr (@key pyval) (leaf "div") = Ok PyNone
  /\ leaf "div" <> empty_key_tree.
Proof.
  repeat split; try reflexivity. discriminate.
Qed.

Lemma markup_has_no_raw_content_witness :
  valid_tree link_tree = true
  /\ exists out,
       _repr_html_ link_tree = Ok out
       /\ count_char ch_lt out = 2 * count_nodes link_tree
       /\ count_char ch_gt out = 2 * count_nodes link_tree
       /\ count_char ch_quot out = 2 * count_attributes link_tree
       /\ count_char ch_amp out = content_specials link_tree
       /\ ampersands_escaped out = true
       /\ out = spec_markup link_tree
       /\ (forall s, escape s = escape_chars s)
       /\ escape_char ch_amp = "&amp;"
       /\ escape_char ch_lt = "&lt;"
       /\ escape_char ch_gt = "&gt;"
       /\ escape_char ch_quot = "&quot;".
Proof.
  split; [reflexivity |].
  apply (markup_has_no_raw_content link_tree). reflexivity.
Defined.

Lemma setattr_on_constructed_raises_witness :
  VDOM (env := env_v1) (PyStr "div") PyNone (PyList [PyStr "hey"])
       (PyStr "k") PyNone
  = ([], Ok (PyVDOM (built (PyStr "div") (PyDict []) [PyStr "hey"] (PyStr "k"))))
  /\ __setattr__ (built (PyStr "div") (PyDict []) [PyStr "hey"] (PyStr "k"))
                 "tag_name" (PyStr "span")
     = (built (PyStr "div") (PyDict []) [PyStr "hey"] (PyStr "k"),
        Err (Raise AttributeError (Some immutable_msg))).
Proof.
  split; [reflexivity |].
  apply (@setattr_on_constructed_raises env_v1
           (PyStr "div") PyNone (PyList [PyStr "hey"]) (PyStr "k") PyNone []).
  reflexivity.
Defined.

(** C4 as stated fails: [VDOM('div', children=[5])] raises a [ValueError],
    and [ValueError] is not a subclass of [TypeError]. *)
Lemma bad_child_error_is_not_a_TypeError :
  VDOM (env := env_v1) (PyStr "div") PyNone (PyList [PyInt 5]) PyNone PyNone
  = ([], Err (Raise ValueError (Some children_msg)))
  /\ issubclass ValueError TypeError = false.
Proof. split; reflexivity. Qed.

Lemma bad_child_raises_ValueError_witness :
  VDOM (env := env_v1) (PyStr "div") PyNone
       (PyList [PyStr "ok"; PyInt 5]) PyNone PyNone
  = raise (match frozen_attributes (env := env_v1) PyNone with
           | Ok _ => Raise ValueError (Some children_msg)
           | Err e => e
           end)
  /\ (py_truthy PyNone = false \/ is_dict PyNone = true ->
      VDOM (env := env_v1) (PyStr "div") PyNone
           (PyList [PyStr "ok"; PyInt 5]) PyNone PyNone
      = raise (Raise ValueError (Some children_msg)))
  /\ issubclass ValueError TypeError = false.
Proof.
  apply (@bad_child_raises_ValueError env_v1 (PyStr "div") PyNone
           (PyList [PyStr "ok"; PyInt 5]) PyNone PyNone
           [PyStr "ok"; PyInt 5]);
    [reflexivity | left; reflexivity | reflexivity].
Defined.

Lemma component_children_witness :
  create_component (env := env_v1) "div" true [PyList [leaf "p"; PyStr "x"]] []
  = ret (PyVDOM (built (PyStr "div") (PyDict []) [leaf "p"; PyStr "x"] PyNone))
  /\ create_component (env := env_v1) "div" true [leaf "p"; PyStr "x"] []
     = ret (PyVDOM (built (PyStr "div") (PyDict []) [leaf "p"; PyStr "x"]
                          PyNone))
  /\ create_component (env := env_v1) "div" true [PyStr "x"] []
     = ret (PyVDOM (built (PyStr "div") (PyDict []) [PyStr "x"] PyNone)).
Proof.
  split; [| split].
  - exact (@component_children env_v1 "div" [PyList [leaf "p"; PyStr "x"]] []
             eq_refl).
  - exact (@component_children env_v1 "div" [leaf "p"; PyStr "x"] [] eq_refl).
  - exact (@component_children env_v1 "div" [PyStr "x"] [] eq_refl).
Defined.

(** C6 as stated fails: the tree built by [VDOM('div', key='')] was
    constructed with a key, the empty string, and its [to_dict] has no
    ['key']. *)
Lemma to_dict_drops_empty_key :
  VDOM (env := env_v1) (PyStr "div") PyNone PyNone (PyStr "") PyNone
  = ([], Ok empty_key_tree)
  /\ getattr (@key pyval) empty_key_tree = Ok (PyStr "")
  /\ PyStr "" <> PyNone
  /\ exists d, to_dict empty_key_tree = Ok (PyDict d)
               /\ dict_mem "key" d = false.
Proof.
  repeat split; try reflexivity; try discriminate.
  eexists. split; reflexivity.
Qed.

Lemma to_dict_mapping_witness :
  constructed link_tree = true
  /\ exists d items,
       to_dict link_tree = Ok (PyDict d)
       /\ dict_lookup "tagName" d = Some (PyStr "a")
       /\ dict_lookup "attributes" d
          = Some (PyDict [("href", PyStr "http://x?a=1&b=2")])
       /\ dict_lookup "children" d = Some (PyList items)
       /\ Forall2 converted_child [PyStr "She said 'hi' <now>"; leaf "br"] items
       /\ dict_mem "key" d = py_truthy (PyStr "k1")
       /\ (py_truthy (PyStr "k1") = true ->
           dict_lookup "key" d = Some (PyStr "k1")).
Proof.
  split; [reflexivity |].
  apply (to_dict_mapping (PyStr "a") [("href", PyStr "http://x?a=1&b=2")]
           [PyStr "She said 'hi' <now>"; leaf "br"] (PyStr "k1")).
  reflexivity.
Defined.

Lemma from_dict_validates_first_witness :
  (forall v, validate (Environment := env_v1) v VDOM_SCHEMA = false ->
             from_dict (env := env_v1) v
             = ([], Err (Raise ValidationError None)))
  /\ (forall d, dict_mem "tagName" d = false ->
                from_dict (env := env_v1) (PyDict d)
                = ([], Err (Raise ValidationError None))).
Proof.
  apply (@from_dict_validates_first env_v1).
  exact wire_format_requires_tagName.
Defined.

(** A mapping without ['tagName'], decoded. *)
Example from_dict_without_tagName :
  from_dict (env := env_v1)
    (PyDict [("attributes", PyDict []); ("children", PyList [PyStr "x"])])
  = ([], Err (Raise ValidationError None)).
Proof. reflexivity. Qed.

Lemma childless_component_witness :
  create_component (env := env_v1) "img" false [PyStr "oops"] []
  = ([], Err (Raise ValueError (Some "<img /> cannot have children")))
  /\ create_component (env := env_v1) "img" false [] [("src", PyStr "x.png")]
     = ret (PyVDOM (built (PyStr "img") (PyDict [("src", PyStr "x.png")]) []
                          PyNone)).
Proof.
  split.
  - exact (proj1 (@childless_component env_v1 "img" [PyStr "oops"] [])).
  - exact (proj2 (@childless_component env_v1 "img" []
                    [("src", PyStr "x.png")]) eq_refl eq_refl).
Defined.

(** Scenario C: [create_component('img', allow_children=False)('oops')]. *)
Example img_cannot_have_children :
  create_component (env := env_v1) "img" false [PyStr "oops"] []
  = ([], Err (Raise ValueError (Some "<img /> cannot have children"))).
Proof. reflexivity. Qed.

Lemma legacy_adapter_witness :
  let v := PyDict [("tagName", PyStr "b");
                   ("children", PyList [PyStr "x"; PyDict [("tagName", PyStr "i")]])] in
  is_dict v || is_list v = true
  /\ VDOM (env := env_v1) v PyNone PyNone PyNone PyNone
     = (deprecated_msg :: fst (from_dict (env := env_v1) v),
        snd (from_dict (env := env_v1) v))
  /\ from_dict (env := env_v1) v
     = ([], Ok (PyVDOM (built (PyStr "b") (PyDict [])
                              [PyStr "x"; leaf "i"] PyNone))).
Proof.
  intros v. split; [reflexivity |]. split; [| reflexivity].
  apply (@legacy_adapter env_v1 v PyNone PyNone PyNone PyNone). reflexivity.
Defined.

Lemma markup_has_no_apostrophe_witness :
  valid_tree link_tree = true
  /\ content_apostrophes link_tree = 2
  /\ (exists out,
         _repr_html_ link_tree = Ok out
         /\ count_char ch_apos out = 0
         /\ count_occurrences apos_ref out = content_apostrophes link_tree)
  /\ (forall s1 s2,
         escape (s1 ++ String ch_apos s2) = escape s1 ++ "&#x27;" ++ escape s2).
Proof.
  split; [reflexivity |]. split; [reflexivity |].
  apply (markup_has_no_apostrophe link_tree). reflexivity.
Defined.

(** Scenarios A, B and D of the specification. *)
Example scenario_A :
  _repr_html_ (PyVDOM (built (PyStr "div") (PyDict [])
                             [PyVDOM (built (PyStr "p") (PyDict [])
                                            [PyStr "hey"] PyNone)] PyNone))
  = Ok "<div><p>hey</p></div>".
Proof. reflexivity. Qed.

Example scenario_B :
  _repr_html_ (PyVDOM (built (PyStr "a")
                             (PyDict [("href", PyStr "http://x?a=1&b=2")])
                             [] PyNone))
  = Ok ("<a href=" ++ dquote ++ "http://x?a=1&amp;b=2" ++ dquote ++ "></a>").
Proof. reflexivity. Qed.

Example scenario_D :
  _repr_html_ (PyVDOM (built (PyStr "p") (PyDict [])
                             [PyStr ("She said " ++ dquote ++ "hi" ++ dquote)]
                             PyNone))
  = Ok "<p>She said &quot;hi&quot;</p>".
Proof. reflexivity. Qed.

(** The empty key is lost whatever the schema and its validator are: either
    the structured form is refused, or the tree read back has no key. *)
Lemma empty_key_never_comes_back (env : Environment) ws :
  from_dict (env := env)
    (PyDict [("tagName", PyStr "div"); ("attributes", PyDict []);
             ("children", PyList [])])
  <> (ws, Ok empty_key_tree).
Proof.
  rewrite from_dict_dict. unfold checked_validate.
  destruct (validate _ _); cbn; discriminate.
Qed.

(** The backwards compatible interface ignores the children it is given. *)
Example legacy_ignores_supplied_children :
  VDOM (env := env_v1) (PyDict [("tagName", PyStr "b")]) PyNone
       (PyList [PyInt 5]) PyNone PyNone
  = ([deprecated_msg], Ok (leaf "b")).
Proof. reflexivity. Qed.

(** C5 as stated fails: a tuple is an ordered sequence, but a tuple given as
    the only positional argument is not a list and is not flattened.  It is
    kept as the single child, which the constructor refuses: the call
    raises, where the claim has the tree whose children are the members of
    the tuple.  The same members in a list give that tree. *)
Lemma tuple_argument_is_not_flattened :
  create_component (env := env_v1) "div" true [PyTuple [PyStr "a"]] []
  = ([], Err (Raise ValueError (Some children_msg)))
  /\ create_component (env := env_v1) "div" true [PyTuple [PyStr "a"]] []
     <> ret (PyVDOM (built (PyStr "div") (PyDict []) [PyStr "a"] PyNone))
  /\ create_component (env := env_v1) "div" true [PyList [PyStr "a"]] []
     = ret (PyVDOM (built (PyStr "div") (PyDict []) [PyStr "a"] PyNone)).
Proof. split; [reflexivity | split; [discriminate | reflexivity]]. Qed.

(** The ['children'] keyword overrides the positional arguments. *)
Example children_keyword_overrides :
  create_component (env := env_v1) "div" true [PyStr "x"]
                   [("children", PyList [PyStr "y"]); ("id", PyStr "main")]
  = ret (PyVDOM (built (PyStr "div") (PyDict [("id", PyStr "main")])
                       [PyStr "y"] PyNone)).
Proof. reflexivity. Qed.

(* ================================================================= *)
(** ** More of the constructor *)

Section ConstructorFacts.

Context {env : Environment}.

Lemma VDOM_of_plain t a c k schema :
  is_dict t || is_list t = false ->
  VDOM t a c k schema
  = (self <- init_fields new_object t a c k schema ;; ret (PyVDOM self)).
Proof.
  intros Ht. unfold VDOM, VDOM_call. rewrite init_of_plain by exact Ht.
  reflexivity.
Qed.

(** X1: attributes and children are always materialized.  With a tag that
    is not a dict or a list, any false value for the attributes ([None],
    an empty dict, ...) and any false value for the children ([None], an
    empty list, tuple or string, ...) give the tree with an empty attribute
    mapping and no child; tag and key are stored as given, unchecked. *)
Theorem VDOM_materializes_defaults t a c k :
  is_dict t || is_list t = false ->
  py_truthy a = false ->
  py_truthy c = false ->
  VDOM t a c k PyNone = ret (PyVDOM (built t (PyDict []) [] k)).
Proof.
  intros Ht Ha Hc. rewrite VDOM_of_plain by exact Ht.
  rewrite (init_fields_new t a c k PyNone (PyDict []) []).
  - reflexivity.
  - unfold frozen_attributes. rewrite Ha. reflexivity.
  - apply tuple_of_falsy. exact Hc.
Qed.

Lemma append_empty_r (s : string) : s ++ "" = s.
Proof. induction s as [| c s IH]; [reflexivity |]. cbn. rewrite IH. reflexivity. Qed.

Lemma chars_are_children s : forallb is_child (chars s) = true.
Proof. induction s as [| c s IH]; [reflexivity | exact IH]. Qed.

Lemma chars_rendered s :
  mapM_result render_child (chars s) = Ok (map escape_char (list_ascii_of_string s)).
Proof.
  induction s as [| c s IH]; [reflexivity |].
  cbn [chars]. rewrite mapM_result_cons. cbn [render_child rbind].
  rewrite IH. cbn [rbind list_ascii_of_string map].
  rewrite escape_one. reflexivity.
Qed.

Lemma concat_escape_chars s :
  concat_strings (map escape_char (list_ascii_of_string s)) = escape s.
Proof.
  rewrite escape_charwise.
  induction s as [| c s IH]; [reflexivity |].
  cbn. rewrite <- IH. reflexivity.
Qed.

(** X2: a string given as the children is taken apart.  [VDOM(tag,
    children=s)] with a non-empty string [s] builds a tree with one text
    child per character of [s]; its markup is the markup of the tree whose
    only child is the text [s]. *)
Theorem VDOM_string_children t a k s fdv :
  is_dict t || is_list t = false ->
  frozen_attributes a = Ok fdv ->
  s <> "" ->
  VDOM t a (PyStr s) k PyNone = ret (PyVDOM (built t fdv (chars s) k))
  /\ _repr_html_ (PyVDOM (built t fdv (chars s) k))
     = _repr_html_ (PyVDOM (built t fdv [PyStr s] k)).
Proof.
  intros Ht Ha Hs. split.
  - rewrite VDOM_of_plain by exact Ht.
    rewrite (init_fields_new t a (PyStr s) k PyNone fdv (chars s) Ha).
    + rewrite chars_are_children. reflexivity.
    + unfold tuple_of_children. cbn [py_truthy].
      destruct (String.eqb_spec s ""); [contradiction | reflexivity].
  - cbn [_repr_html_ built tag_name attributes children with_slot].
    change (mapM_result
              (fun c => match c with
                        | PyStr t0 => Ok (escape t0)
                        | _ => _repr_html_ c
                        end) (chars s))
      with (mapM_result render_child (chars s)).
    rewrite chars_rendered. cbn [mapM_result rbind].
    rewrite concat_escape_chars. cbn [concat_strings fold_right].
    rewrite (append_empty_r (escape s)). reflexivity.
Qed.

(** X3: the children must be iterable.  With a tag that is not a dict or a
    list and attributes that convert, a true value for the children that
    cannot be iterated over (a number, [True], or a single VDOM object given
    without a list around it) makes the constructor raise [TypeError], and no
    object is handed out. *)
Theorem VDOM_children_not_iterable t a c k schema fdv e :
  is_dict t || is_list t = false ->
  frozen_attributes a = Ok fdv ->
  py_truthy c = true ->
  py_iter c = Err e ->
  VDOM t a c k schema = raise e /\ exc_type e = TypeError.
Proof.
  intros Ht Ha Hc He. split.
  - rewrite VDOM_of_plain by exact Ht.
    rewrite (init_fields_bad_children t a c k schema fdv e Ha).
    + reflexivity.
    + unfold tuple_of_children, py_tuple. rewrite Hc, He. reflexivity.
  - destruct c; inversion He; reflexivity.
Qed.

Lemma children_constructed l :
  forallb is_child l = true ->
  Forall (fun c => is_VDOM c = true -> constructed c = true) l ->
  forallb (fun c => is_str c || constructed c) l = true.
Proof.
  intros Hl Hc. rewrite forallb_forall in *. rewrite Forall_forall in Hc.
  intros c Hin. specialize (Hl c Hin). specialize (Hc c Hin).
  unfold is_child in Hl. apply orb_prop in Hl as [Hv | Hs].
  - rewrite (Hc Hv). apply orb_true_r.
  - rewrite Hs. reflexivity.
Qed.

(** X4: what the constructor hands out is well formed.  With a tag that is
    not a dict or a list, if every VDOM object among the members of the
    children is well formed (all slots assigned, frozen, attributes a
    mapping, children a tuple of strings and well formed objects), so is the
    object returned. *)
Theorem VDOM_constructed t a c k schema ws v :
  is_dict t || is_list t = false ->
  (forall l, py_iter c = Ok l ->
             Forall (fun m => is_VDOM m = true -> constructed m = true) l) ->
  VDOM t a c k schema = (ws, Ok v) ->
  constructed v = true.
Proof.
  intros Ht Hmembers H. rewrite VDOM_of_plain in H by exact Ht.
  apply bind_ok_inv in H as (ws1 & self & ws2 & Hinit & Hret & _).
  inversion Hret; subst.
  apply init_fields_ok_inv in Hinit as (d & l & _ & Hc & Hl & ->).
  unfold constructed. cbn. apply children_constructed; [exact Hl |].
  unfold tuple_of_children in Hc. destruct (py_truthy c).
  - unfold py_tuple in Hc. destruct (py_iter c) as [l' |] eqn:Hiter;
      [| discriminate].
    inversion Hc; subst. apply Hmembers. reflexivity.
  - inversion Hc. constructor.
Qed.

Lemma silent_bind {A B} (m : M A) (k : A -> M B) :
  fst m = [] -> (forall a, fst (k a) = []) -> fst (bind m k) = [].
Proof.
  intros Hm Hk. destruct m as [ws [a | e]]; cbn in Hm; subst; cbn.
  - specialize (Hk a). destruct (k a) as [ws' r]. exact Hk.
  - reflexivity.
Qed.

Lemma assign_silent self attr value : fst (assign self attr value) = [].
Proof.
  unfold assign. destruct (__setattr__ self attr value) as [s [[] | e]];
    reflexivity.
Qed.

Lemma init_fields_silent self t a c k schema :
  fst (init_fields self t a c k schema) = [].
Proof.
  unfold init_fields.
  repeat (apply silent_bind;
          [first [apply assign_silent | reflexivity] | intros ?]).
  match goal with |- context [if ?b then _ else _] => destruct b end;
    [reflexivity |].
  apply silent_bind; [apply assign_silent | intros self'].
  destruct schema; try reflexivity;
    (apply silent_bind; [apply VDOM_validate_silent | reflexivity]).
Qed.

(** X5: only the backwards compatible interface warns.  With a tag that is
    not a dict or a list the constructor emits no warning, whatever the
    other arguments and whether it returns or raises; neither does a call
    of a component. *)
Theorem plain_construction_is_silent t a c k schema tag allow args kwargs :
  is_dict t || is_list t = false ->
  fst (VDOM t a c k schema) = []
  /\ fst (create_component tag allow args kwargs) = [].
Proof.
  intros Ht.
  assert (Hplain : forall t' a' c' k' sc,
             is_dict t' || is_list t' = false ->
             fst (VDOM t' a' c' k' sc) = []).
  { intros t' a' c' k' sc Ht'. rewrite VDOM_of_plain by exact Ht'.
    pose proof (init_fields_silent new_object t' a' c' k' sc) as Hs.
    destruct (init_fields new_object t' a' c' k' sc) as [ws [self | e]];
      cbn in Hs; subst; reflexivity. }
  split; [apply Hplain; exact Ht |].
  unfold create_component.
  destruct (resolve_children args kwargs) as [children_ kwargs'].
  destruct (negb allow && py_truthy children_); [reflexivity |].
  apply Hplain. reflexivity.
Qed.

(** X6: the [schema] argument.  Where the constructor without [schema]
    returns a tree, the constructor with a [schema] other than [None]
    returns that same tree when the validator accepts its structured form
    against that schema, and raises [ValidationError] when it does not. *)
Theorem VDOM_with_schema t a c k schema v d :
  is_dict t || is_list t = false ->
  schema <> PyNone ->
  VDOM t a c k PyNone = ([], Ok v) ->
  to_dict v = Ok d ->
  VDOM t a c k schema
  = if validate d schema then ([], Ok v)
    else ([], Err (Raise ValidationError None)).
Proof.
  intros Ht Hsc H Hd. rewrite VDOM_of_plain in H |- * by exact Ht.
  apply bind_ok_inv in H as (ws1 & self & ws2 & Hinit & Hret & _).
  inversion Hret; subst.
  apply init_fields_ok_inv in Hinit as (da & l & Ha & Hc & Hl & ->).
  rewrite (init_fields_new t a c k schema _ _ Ha Hc), Hl.
  assert (Hv : VDOM_validate (built t (PyDict da) l k) schema
               = if validate d schema then ret tt
                 else raise (Raise ValidationError None)).
  { unfold VDOM_validate. rewrite Hd, bind_lift_ok. reflexivity. }
  destruct schema; try contradiction; rewrite Hv;
    destruct (validate d _); reflexivity.
Qed.

End ConstructorFacts.

(* ================================================================= *)
(** ** More of [from_dict] *)

Section DecodingFacts.

Context {env : Environment}.

Lemma dict_find_present {R} k (found : pyval -> R) (missing : R) d v :
  dict_lookup k d = Some v -> dict_find k found missing d = found v.
Proof.
  unfold dict_lookup. induction d as [| [k' x] d IH]; cbn; [discriminate |].
  destruct (String.eqb k k'); [intros [= ->]; reflexivity | exact IH].
Qed.

Lemma dict_lookup_mem k d :
  dict_mem k d = match dict_lookup k d with Some _ => true | None => false end.
Proof.
  unfold dict_mem, dict_lookup. induction d as [| [k' x] d IH]; cbn;
    [reflexivity |].
  destruct (String.eqb k k'); [reflexivity | exact IH].
Qed.

Lemma dict_find_ok_mem {A} k (found : pyval -> M A) e d ws x :
  dict_find k found (raise e) d = (ws, Ok x) ->
  exists v, dict_lookup k d = Some v /\ found v = (ws, Ok x).
Proof.
  unfold dict_lookup. induction d as [| [k' v] d IH]; cbn; [discriminate |].
  destruct (String.eqb k k'); eauto.
Qed.

(** X7: [from_dict] returns a tree only for a mapping that the validator
    accepts and that has a ['tagName'] entry; for any other value it raises
    ([ValidationError], [KeyError] for the missing entry, [TypeError] for a
    value that is not a mapping). *)
Theorem from_dict_needs_tagName value ws t :
  from_dict value = (ws, Ok t) ->
  exists d tag,
    value = PyDict d
    /\ dict_lookup "tagName" d = Some tag
    /\ validate value VDOM_SCHEMA = true.
Proof.
  intros H.
  assert (Hvalid : validate value VDOM_SCHEMA = true).
  { destruct (validate value VDOM_SCHEMA) eqn:Hv; [reflexivity |].
    rewrite (from_dict_invalid _ Hv) in H. discriminate. }
  destruct value;
    try (cbn in H;
         apply bind_ok_inv in H as (? & ? & ? & _ & H & _); discriminate).
  rewrite from_dict_dict in H.
  apply bind_ok_inv in H as (? & ? & ? & _ & H & _).
  apply dict_find_ok_mem in H as (tag & Htag & _).
  exists d, tag. auto.
Qed.

(** X8: the defaults of [from_dict].  For a mapping the validator accepts,
    whose ['tagName'] is not itself a dict or a list and that has no
    ['attributes'], ['children'] or ['key'] entry, [from_dict] returns the
    tree of that tag with an empty attribute mapping, no child and no key;
    entries under other names are ignored. *)
Theorem from_dict_defaults d tag :
  validate (PyDict d) VDOM_SCHEMA = true ->
  dict_lookup "tagName" d = Some tag ->
  is_dict tag || is_list tag = false ->
  dict_mem "attributes" d = false ->
  dict_mem "children" d = false ->
  dict_mem "key" d = false ->
  from_dict (PyDict d) = ret (PyVDOM (built tag (PyDict []) [] PyNone)).
Proof.
  intros Hv Htag Hplain Ha Hc Hk.
  rewrite from_dict_dict. unfold checked_validate. rewrite Hv, bind_ret.
  rewrite (dict_find_present _ _ _ _ _ Htag).
  rewrite (dict_find_missing _ _ _ _ Hc), bind_ret.
  unfold dict_get.
  rewrite (dict_find_missing _ _ _ _ Ha), (dict_find_missing _ _ _ _ Hk).
  unfold VDOM_call. rewrite init_of_plain by exact Hplain.
  rewrite (init_fields_new tag (PyDict []) (PyList []) PyNone PyNone
             (PyDict []) [] eq_refl eq_refl).
  reflexivity.
Qed.

Lemma without_false_keys_built tag a l k :
  without_false_keys (PyVDOM (built tag a l k))
  = PyVDOM (built tag a (map without_false_keys l)
                  (if py_truthy k then k else PyNone)).
Proof. reflexivity. Qed.

Lemma without_false_keys_child c :
  is_child (without_false_keys c) = is_child c.
Proof.
  destruct c; try reflexivity.
  destruct self as [t a [[| | | | | l | |] |] [k |] f]; reflexivity.
Qed.

Lemma to_dict_child_without_false_keys l :
  forallb (fun c => is_str c || valid_tree c) l = true ->
  Forall (fun c => valid_tree c = true ->
                   to_dict (without_false_keys c) = to_dict c) l ->
  mapM_result to_dict_child (map without_false_keys l)
  = mapM_result to_dict_child l.
Proof.
  induction l as [| c l IHl]; intros Hl IH; [reflexivity |].
  cbn in Hl. apply andb_prop in Hl as [Hc Hl].
  inversion IH as [| ? ? IHc IHrest]; subst.
  cbn [map]. rewrite !mapM_result_cons, (IHl Hl IHrest).
  destruct c; try discriminate; try reflexivity.
  assert (Hsame : to_dict_child (without_false_keys (PyVDOM self))
                  = to_dict_child (PyVDOM self)).
  { specialize (IHc Hc).
    destruct self as [t a [[| | | | | l' | |] |] [k |] f]; try reflexivity.
    exact IHc. }
  rewrite Hsame. reflexivity.
Qed.

(** [to_dict] does not see the difference. *)
Lemma to_dict_without_false_keys t :
  valid_tree t = true -> to_dict (without_false_keys t) = to_dict t.
Proof.
  revert t. unfold valid_tree.
  apply (tree_shape_ind _ _ _
           (fun t => to_dict (without_false_keys t) = to_dict t)).
  intros tag d l k _ _ Hk Hl IH. fold valid_tree in Hl, IH.
  rewrite without_false_keys_built, !to_dict_built.
  rewrite (to_dict_child_without_false_keys l Hl IH).
  destruct (py_truthy k) eqn:Hkt; [rewrite Hkt |]; reflexivity.
Qed.

(** The read-back of the structured form of any Element Tree. *)
Lemma from_dict_to_dict_normal t :
  (forall t' d, valid_tree t' = true -> to_dict t' = Ok d ->
                validate d VDOM_SCHEMA = true) ->
  valid_tree t = true ->
  exists d, to_dict t = Ok d
            /\ from_dict d = ([], Ok (without_false_keys t)).
Proof.
  intros Hschema. revert t. unfold valid_tree.
  apply (tree_shape_ind _ _ _
           (fun t => exists d, to_dict t = Ok d
                               /\ from_dict d = ([], Ok (without_false_keys t)))).
  intros tag d l k Htag Hattrs Hkey Hl IH. fold valid_tree in Hl, IH.
  assert (Hnode : valid_tree (PyVDOM (built tag (PyDict d) l k)) = true).
  { unfold valid_tree. cbn. rewrite Htag, Hattrs, Hkey. exact Hl. }
  destruct tag as [| | | tag | | | |]; try discriminate.
  assert (Hitems : exists items,
             mapM_result to_dict_child l = Ok items
             /\ Forall2 (fun item c =>
                           from_dict_child item = ret (without_false_keys c))
                        items l).
  { clear Hnode. induction l as [| c l IHl].
    - exists []. split; [reflexivity | constructor].
    - cbn in Hl. apply andb_prop in Hl as [Hc Hl].
      inversion IH as [| ? ? IHc IHrest]; subst.
      destruct (IHl Hl IHrest) as (items & Hitems & HF).
      destruct c; try discriminate.
      + exists (PyStr s :: items). rewrite mapM_result_cons, Hitems.
        split; [reflexivity |]. constructor; [reflexivity | exact HF].
      + destruct (IHc Hc) as (dc & Hdc & Hback).
        exists (dc :: items). rewrite mapM_result_cons.
        cbn [to_dict_child]. rewrite Hdc, Hitems.
        split; [reflexivity |]. constructor; [| exact HF].
        pose proof (to_dict_is_dict _ _ Hdc) as Hisd.
        destruct dc; try discriminate. exact Hback. }
  destruct Hitems as (items & Hitems & Hback).
  rewrite to_dict_built, Hitems. cbn [rbind].
  eexists. split; [reflexivity |].
  assert (Hvalid := fun d' => Hschema _ d' Hnode).
  rewrite to_dict_built, Hitems in Hvalid. cbn [rbind] in Hvalid.
  specialize (Hvalid _ eq_refl).
  rewrite from_dict_dict. unfold checked_validate. rewrite Hvalid, bind_ret.
  rewrite without_false_keys_built.
  assert (Hcall : forall k',
             VDOM_call from_dict (PyStr tag) (PyDict d)
                       (PyList (map without_false_keys l)) k' PyNone
             = ret (PyVDOM (built (PyStr tag) (PyDict d)
                                  (map without_false_keys l) k'))).
  { intros k'. unfold VDOM_call.
    erewrite init_plain;
      [| reflexivity | apply frozen_attributes_dict
       | apply tuple_of_members; left; reflexivity].
    assert (Hch : forallb is_child (map without_false_keys l) = true).
    { rewrite forallb_forall in *. intros c Hc.
      apply in_map_iff in Hc as (c0 & <- & Hc0).
      rewrite without_false_keys_child. specialize (Hl c0 Hc0).
      unfold is_child. destruct c0; try discriminate; reflexivity. }
    rewrite Hch. reflexivity. }
  assert (Hread : mapM from_dict_child items
                  = ret (map without_false_keys l)).
  { apply mapM_ret. clear -Hback.
    induction Hback; cbn; constructor; assumption. }
  destruct k as [| | | key | | | |]; try discriminate.
  - cbn. cbn in Hread. rewrite Hread, bind_ret. apply Hcall.
  - cbn [py_truthy]. destruct (negb (key =? "")%string) eqn:Hne.
    + cbn. cbn in Hread. rewrite Hread, bind_ret. apply Hcall.
    + cbn. cbn in Hread. rewrite Hread, bind_ret. apply Hcall.
Qed.

(** X9: what the round trip does to any Element Tree.  For a schema that
    accepts the structured form of Element Trees, [from_dict(t.to_dict())]
    returns, without warning, the tree [t] in which every empty-string key
    has become [None] and nothing else has changed. *)
Theorem round_trip_normalizes_keys t :
  (forall t' d, valid_tree t' = true -> to_dict t' = Ok d ->
                validate d VDOM_SCHEMA = true) ->
  valid_tree t = true ->
  exists d, to_dict t = Ok d
            /\ from_dict d = ([], Ok (without_false_keys t)).
Proof.
  intros Hschema Ht.
  destruct (from_dict_to_dict_normal t Hschema Ht) as (d & Hd & Hback).
  exists d. split; assumption.
Qed.

(** X10: the structured form is stable.  Under the same assumption, the
    tree read back from [t.to_dict()] has the structured form [t] has: a
    second [to_dict] gives the first mapping again, empty keys or not. *)
Theorem structured_form_is_stable t :
  (forall t' d, valid_tree t' = true -> to_dict t' = Ok d ->
                validate d VDOM_SCHEMA = true) ->
  valid_tree t = true ->
  exists d t', to_dict t = Ok d
               /\ from_dict d = ([], Ok t')
               /\ to_dict t' = Ok d.
Proof.
  intros Hschema Ht.
  destruct (from_dict_to_dict_normal t Hschema Ht) as (d & Hd & Hback).
  exists d, (without_false_keys t). repeat split; try assumption.
  rewrite to_dict_without_false_keys by exact Ht. exact Hd.
Qed.

Lemma dict_lookup_in k d v : dict_lookup k d = Some v -> In (k, v) d.
Proof.
  unfold dict_lookup. induction d as [| [k' x] d IH]; cbn; [discriminate |].
  destruct (String.eqb_spec k k') as [<- |].
  - intros [= ->]. left. reflexivity.
  - intros H. right. apply IH. exact H.
Qed.

Lemma mapM_ok_inv {A B} (f : A -> M B) l ws bs :
  mapM f l = (ws, Ok bs) ->
  Forall2 (fun a b => exists ws', f a = (ws', Ok b)) l bs.
Proof.
  revert ws bs. induction l as [| a l IH]; intros ws bs H.
  - inversion H. constructor.
  - cbn in H.
    apply bind_ok_inv in H as (ws1 & b & ws2 & Hb & H & _).
    apply bind_ok_inv in H as (ws3 & bs' & ws4 & Hbs & H & _).
    inversion H; subst. constructor; [eauto |].
    eapply IH. exact Hbs.
Qed.

Lemma VDOM_call_constructed fd t a c k schema ws v :
  is_dict t || is_list t = false ->
  (forall l, py_iter c = Ok l ->
             Forall (fun m => is_VDOM m = true -> constructed m = true) l) ->
  VDOM_call fd t a c k schema = (ws, Ok v) ->
  constructed v = true.
Proof.
  intros Ht Hmembers H. unfold VDOM_call in H.
  rewrite init_of_plain in H by exact Ht.
  apply bind_ok_inv in H as (ws1 & self & ws2 & Hinit & Hret & _).
  inversion Hret; subst.
  apply init_fields_ok_inv in Hinit as (d & l & _ & Hc & Hl & ->).
  unfold constructed. cbn. apply children_constructed; [exact Hl |].
  unfold tuple_of_children in Hc. destruct (py_truthy c).
  - unfold py_tuple in Hc. destruct (py_iter c) as [l' |] eqn:Hiter;
      [| discriminate].
    inversion Hc; subst. apply Hmembers. reflexivity.
  - inversion Hc. constructor.
Qed.

Lemma chars_not_objects s m : In m (chars s) -> is_VDOM m = false.
Proof.
  induction s as [| c s IH]; cbn; [contradiction |].
  intros [<- | H]; [reflexivity | exact (IH H)].
Qed.

(** X11: what [from_dict] hands out is well formed.  For a value in which
    no VDOM object occurs (decoded JSON, say), whatever the schema and its
    validator accept, a tree returned by [from_dict] has all its slots
    assigned, is frozen, has a mapping for attributes and a tuple of strings
    and of such trees for children, at every level. *)
Theorem from_dict_constructed value ws t :
  object_free value = true ->
  from_dict value = (ws, Ok t) ->
  constructed t = true.
Proof.
  set (good := fun v => forall ws t, object_free v = true ->
                                     from_dict v = (ws, Ok t) ->
                                     constructed t = true).
  assert (H : forall v,
             good v /\ (forall l, v = PyList l \/ v = PyTuple l ->
                                  Forall good l)).
  { induction v using pyval_nested_ind.
    1-4, 8:
      (split;
       [ intros ws' t' _ Hfd;
         cbn in Hfd; apply bind_ok_inv in Hfd as (? & ? & ? & _ & Hfd & _);
         discriminate
       | intros l [Hl | Hl]; discriminate ]).
    - (* list *)
      split.
      + intros ws' t' _ H0.
        cbn in H0; apply bind_ok_inv in H0 as (? & ? & ? & _ & H0 & _);
          discriminate.
      + intros l' [[= <-] | [=]].
        eapply Forall_impl; [| exact H]. intros c [Hc _]. exact Hc.
    - (* tuple *)
      split.
      + intros ws' t' _ H0.
        cbn in H0; apply bind_ok_inv in H0 as (? & ? & ? & _ & H0 & _);
          discriminate.
      + intros l' [[=] | [= <-]].
        eapply Forall_impl; [| exact H]. intros c [Hc _]. exact Hc.
    - (* dict *)
      split; [| intros l [Hl | Hl]; discriminate].
      intros ws' t' Hfree Hfd.
      cbn [object_free] in Hfree. rewrite forallb_forall in Hfree.
      rewrite Forall_forall in H.
      rewrite from_dict_dict in Hfd.
      apply bind_ok_inv in Hfd as (? & ? & ? & _ & Hfd & _).
      apply dict_find_ok_mem in Hfd as (tag & Htag & Hfd).
      apply dict_lookup_in in Htag.
      apply bind_ok_inv in Hfd as (ws1 & cs & ws2 & Hcs & Hcall & _).
      (* the members decoded *)
      assert (Hmembers : Forall (fun m => is_VDOM m = true ->
                                          constructed m = true) cs).
      { destruct (dict_lookup "children" d) as [seq |] eqn:Hseq.
        - rewrite (dict_find_present _ _ _ _ _ Hseq) in Hcs.
          apply dict_lookup_in in Hseq.
          pose proof (H _ Hseq) as [_ Hlist]. cbn [snd] in Hlist.
          pose proof (Hfree _ Hseq) as Hseqfree. cbn [snd] in Hseqfree.
          assert (Hdecoded : forall l,
                     seq = PyList l \/ seq = PyTuple l ->
                     mapM from_dict_child l = (ws1, Ok cs) ->
                     Forall (fun m => is_VDOM m = true ->
                                      constructed m = true) cs).
          { intros l Hl Hmap.
            pose proof (Hlist l Hl) as Hgood.
            assert (Hlfree : forallb object_free l = true).
            { destruct Hl as [-> | ->]; exact Hseqfree. }
            apply mapM_ok_inv in Hmap. clear -Hmap Hgood Hlfree.
            induction Hmap as [| c m l cs [ws' Hc] _ IH]; [constructor |].
            inversion Hgood; subst. cbn in Hlfree.
            apply andb_prop in Hlfree as [Hcfree Hlfree].
            constructor; [| apply IH; assumption].
            intros Hm. destruct c; cbn in Hc; inversion Hc; subst;
              try discriminate.
            eapply H1; [exact Hcfree | exact Hc]. }
          destruct seq as [| b | z | s | l | l | dd | o]; cbn in Hcs;
            try discriminate.
          + inversion Hcs; subst. rewrite Forall_forall. intros m Hm Hv.
            apply chars_not_objects in Hm. congruence.
          + eapply Hdecoded; [left; reflexivity | exact Hcs].
          + eapply Hdecoded; [right; reflexivity | exact Hcs].
          + inversion Hcs; subst. rewrite Forall_forall. intros m Hm Hv.
            apply in_map_iff in Hm as (? & <- & _). discriminate.
        - rewrite (dict_find_missing "children" _ _ d) in Hcs.
          + inversion Hcs. constructor.
          + rewrite dict_lookup_mem, Hseq. reflexivity. }
      destruct (is_dict tag || is_list tag) eqn:Hlegacy.
      + (* the tag is itself a structured value *)
        pose proof (H _ Htag) as [Hgoodtag _]. cbn [snd] in Hgoodtag.
        pose proof (Hfree _ Htag) as Htagfree. cbn [snd] in Htagfree.
        destruct (from_dict tag) as [wt [obj | e]] eqn:Hobj.
        * pose proof (Hgoodtag _ _ Htagfree Hobj) as Hconstructed.
          destruct (from_dict_shape _ _ _ Hobj)
            as (tg & da & l' & ky & -> & Hl').
          change (VDOM_call from_dict tag
                    (dict_get "attributes" (PyDict []) d) (PyList cs)
                    (dict_get "key" PyNone d) PyNone)
            with (VDOM tag (dict_get "attributes" (PyDict []) d) (PyList cs)
                       (dict_get "key" PyNone d) PyNone) in Hcall.
          rewrite (VDOM_of_structure tag _ _ _ PyNone _ _ _ _ _
                     Hlegacy Hobj Hl') in Hcall.
          inversion Hcall; subst. exact Hconstructed.
        * unfold VDOM_call, __init__, legacy_arguments in Hcall.
          rewrite Hlegacy in Hcall. cbn [warn bind app] in Hcall.
          rewrite Hobj in Hcall. discriminate.
      + eapply VDOM_call_constructed; [exact Hlegacy | | exact Hcall].
        intros l [= <-]. exact Hmembers. }
  intros Hfree Hfd. exact (proj1 (H value) ws t Hfree Hfd).
Qed.

End DecodingFacts.

(* ================================================================= *)
(** ** More of the markup *)

Lemma unescape_head_escape_char c rest :
  unescape_head (escape_char c ++ rest) = Some (c, rest).
Proof. destruct c as [[] [] [] [] [] [] [] []]; reflexivity. Qed.

(** X12: escaping loses nothing.  Two texts with the same escaped form are
    the same text, so distinct text children or attribute values are never
    written alike. *)
Theorem escape_injective s1 s2 : escape s1 = escape s2 -> s1 = s2.
Proof.
  revert s2. induction s1 as [| c s1 IH]; intros [| c' s2] H.
  - reflexivity.
  - rewrite escape_cons in H. apply (f_equal unescape_head) in H.
    rewrite unescape_head_escape_char in H. discriminate.
  - rewrite escape_cons in H. apply (f_equal unescape_head) in H.
    rewrite unescape_head_escape_char in H. discriminate.
  - rewrite !escape_cons in H. apply (f_equal unescape_head) in H.
    rewrite !unescape_head_escape_char in H.
    injection H as -> H. f_equal. apply IH. exact H.
Qed.

Lemma escape_char_length c :
  String.length (escape_char c) = 1 + (String.length (escape_char c) - 1)
  /\ (is_special c = false -> escape_char c = String c EmptyString)
  /\ (is_special c = true -> 1 < String.length (escape_char c)).
Proof.
  destruct c as [[] [] [] [] [] [] [] []]; cbn;
    repeat split; intros; try discriminate; try reflexivity; lia.
Qed.

Lemma append_length (a b : string) :
  String.length (a ++ b) = String.length a + String.length b.
Proof. induction a as [| x a IH]; [reflexivity |]. cbn. rewrite IH. reflexivity. Qed.

Lemma escape_length s :
  String.length (escape s) >= String.length s
  /\ (count_special s = 0 -> escape s = s)
  /\ (count_special s <> 0 -> String.length (escape s) > String.length s).
Proof.
  induction s as [| c s (IHle & IHid & IHgt)].
  - cbn. repeat split; auto. intros H. contradiction.
  - rewrite escape_cons, append_length. cbn [count_special String.length].
    destruct (escape_char_length c) as (_ & Hplain & Hspecial).
    destruct (is_special c) eqn:Hc.
    + specialize (Hspecial eq_refl).
      repeat split; [clear -IHle Hspecial; lia | discriminate |].
      intros _. clear -IHle Hspecial. lia.
    + rewrite (Hplain eq_refl). cbn [String.length].
      repeat split.
      * clear -IHle. lia.
      * intros H0. cbn. rewrite (IHid H0). reflexivity.
      * intros H0. assert (H1 : count_special s <> 0) by (clear -H0; lia).
        specialize (IHgt H1). clear -IHgt. lia.
Qed.

(** X13: what escaping leaves alone.  A text is written unchanged exactly
    when it has none of the characters [&], [<], [>], double quote and
    apostrophe; any other text gets strictly longer. *)
Theorem escape_fixes_plain_text s :
  (escape s = s <-> count_special s = 0)
  /\ String.length s <= String.length (escape s).
Proof.
  destruct (escape_length s) as (Hle & Hid & Hgt).
  split; [| lia]. split; [| exact Hid].
  intros Heq. destruct (Nat.eq_dec (count_special s) 0) as [H0 | Hn];
    [exact H0 |].
  specialize (Hgt Hn). rewrite Heq in Hgt. lia.
Qed.

Lemma attributes_not_rendered d :
  str_values d = false ->
  mapM_result write_attribute d = Err (Raise AttributeError None).
Proof.
  induction d as [| [k v] d IH]; intros Hd; [discriminate |].
  cbn in Hd. rewrite mapM_result_cons.
  destruct v; cbn in Hd |- *; try reflexivity.
  fold (str_values d) in Hd. rewrite (IH Hd). reflexivity.
Qed.

Lemma attributes_written d :
  str_values d = true -> exists texts, mapM_result write_attribute d = Ok texts.
Proof.
  intros Hd. destruct (attributes_rendered d Hd) as (texts & H & _). eauto.
Qed.

Lemma children_render_outcome l :
  forallb (fun c => is_str c || constructed c) l = true ->
  Forall (fun c => constructed c = true -> render_outcome c) l ->
  if forallb (fun c => is_str c || renderable c) l
  then exists texts, mapM_result render_child l = Ok texts
  else mapM_result render_child l = Err (Raise AttributeError None).
Proof.
  induction l as [| c l IHl]; intros Hl IH.
  - cbn. eauto.
  - cbn in Hl. apply andb_prop in Hl as [Hc Hl].
    inversion IH as [| ? ? IHc IHrest]; subst.
    specialize (IHl Hl IHrest). cbn [forallb]. rewrite mapM_result_cons.
    destruct c; try discriminate.
    + cbn [is_str orb andb render_child rbind].
      destruct (forallb (fun c => is_str c || renderable c) l).
      * destruct IHl as [texts ->]. cbn. eauto.
      * rewrite IHl. reflexivity.
    + specialize (IHc Hc). unfold render_outcome in IHc.
      cbn [is_str orb render_child].
      destruct (renderable (PyVDOM self)).
      * destruct IHc as [out ->]. cbn [andb rbind].
        destruct (forallb (fun c => is_str c || renderable c) l).
        -- destruct IHl as [texts ->]. cbn. eauto.
        -- rewrite IHl. reflexivity.
      * rewrite IHc. reflexivity.
Qed.

Lemma constructed_render_outcome t :
  constructed t = true -> render_outcome t.
Proof.
  revert t. unfold constructed.
  apply (tree_shape_ind _ _ _ render_outcome).
  intros tag d l k _ _ _ Hl IH. fold constructed in Hl, IH.
  pose proof (children_render_outcome l Hl IH) as Hch.
  unfold render_outcome, renderable.
  cbn [tree_shape built]. fold renderable. unfold anything at 1.
  rewrite andb_true_r.
  destruct tag; cbn [is_str andb]; try reflexivity.
  rewrite repr_html_built.
  destruct (str_values d) eqn:Hd.
  - destruct (attributes_written d Hd) as [atexts ->]. cbn [andb rbind].
    revert Hch.
    destruct (forallb (fun c => is_str c || renderable c) l); intros Hch.
    + destruct Hch as [ctexts ->]. cbn. eauto.
    + rewrite Hch. reflexivity.
  - rewrite (attributes_not_rendered d Hd). reflexivity.
Qed.

(** X14: when a tree can be written as markup.  For a well formed tree
    whose attribute mappings are keyed by strings (the mappings of [pyval]
    have no other keys), [_repr_html_] returns markup exactly when every tag
    and every attribute value in it, at every level, is a string; otherwise
    it raises [AttributeError] (the constructor having accepted such tags
    and values unchecked). *)
Theorem markup_needs_strings t :
  constructed t = true ->
  if renderable t then exists out, _repr_html_ t = Ok out
  else _repr_html_ t = Err (Raise AttributeError None).
Proof.
  intros Ht. pose proof (constructed_render_outcome t Ht) as H.
  unfold render_outcome in H. exact H.
Qed.

(** X15: the display bundle.  For a well formed tree that can be written as
    markup, [_repr_mimebundle_] returns a mapping with exactly two entries,
    the structured form under ['application/vdom.v1+json'] and the markup
    under ['text/plain']; for one that cannot, it raises [AttributeError]
    and returns no bundle, structured form included. *)
Theorem mimebundle_outcome t :
  constructed t = true ->
  (renderable t = true ->
   exists d out,
     to_dict t = Ok d /\ _repr_html_ t = Ok out
     /\ _repr_mimebundle_ t
        = Ok (PyDict [("application/vdom.v1+json", d);
                      ("text/plain", PyStr out)]))
  /\ (renderable t = false ->
      _repr_mimebundle_ t = Err (Raise AttributeError None)).
Proof.
  intros Ht.
  destruct (to_dict_constructed t Ht) as [d Hd].
  pose proof (constructed_render_outcome t Ht) as Hr.
  unfold render_outcome in Hr. unfold _repr_mimebundle_. rewrite Hd.
  cbn [rbind]. split; intros Hren; rewrite Hren in Hr.
  - destruct Hr as [out Hout]. exists (PyDict d), out. rewrite Hout.
    repeat split; try assumption.
  - rewrite Hr. reflexivity.
Qed.

(* ================================================================= *)
(** ** More of the factory, [h] and [to_json] *)

Lemma dict_mem_remove k d : dict_mem k (dict_remove k d) = false.
Proof.
  unfold dict_mem. induction d as [| [k' v] d IH]; [reflexivity |].
  cbn. destruct (String.eqb k k') eqn:Hk; [exact IH |].
  cbn. rewrite Hk. exact IH.
Qed.

Lemma dict_mem_remove_other k k' d :
  String.eqb k k' = false ->
  dict_mem k (dict_remove k' d) = dict_mem k d.
Proof.
  intros Hk. unfold dict_mem. induction d as [| [k0 v] d IH]; [reflexivity |].
  cbn. destruct (String.eqb k' k0) eqn:Hk0.
  - apply String.eqb_eq in Hk0. subst k0. rewrite Hk. exact IH.
  - cbn. destruct (String.eqb k k0); [reflexivity | exact IH].
Qed.

Lemma dict_mem_set k k' v d :
  dict_mem k (dict_set k' v d) = String.eqb k k' || dict_mem k d.
Proof.
  unfold dict_mem. induction d as [| [k0 v0] d IH].
  - cbn. destruct (String.eqb k k'); reflexivity.
  - cbn. destruct (String.eqb k' k0) eqn:Hk0.
    + apply String.eqb_eq in Hk0. subst k0. cbn.
      destruct (String.eqb k k'); reflexivity.
    + cbn. destruct (String.eqb k k0) eqn:Hkk0.
      * rewrite orb_true_r. reflexivity.
      * exact IH.
Qed.

Lemma dict_mem_update k d other :
  dict_mem k (dict_update d other) = dict_mem k d || dict_mem k other.
Proof.
  unfold dict_update. revert d.
  induction other as [| [k' v] other IH]; intros d.
  - cbn. rewrite orb_false_r. reflexivity.
  - cbn [fold_left fst snd]. rewrite IH, dict_mem_set.
    change (dict_mem k ((k', v) :: other))
      with (if String.eqb k k' then true else dict_mem k other).
    destruct (String.eqb k k'), (dict_mem k d), (dict_mem k other);
      reflexivity.
Qed.

Section FactoryFacts.

Context {env : Environment}.

(** X16: the ['children'] keyword.  A call of a component with a list [l]
    under the keyword ['children'] is the call with [l] as its only
    positional argument and that keyword removed: the positional arguments
    it was given are ignored entirely. *)
Theorem children_keyword_overrides_arguments tag allow args kwargs l :
  dict_lookup "children" kwargs = Some (PyList l) ->
  create_component tag allow args kwargs
  = create_component tag allow [PyList l] (dict_remove "children" kwargs).
Proof.
  intros Hl. unfold create_component, resolve_children.
  rewrite dict_mem_remove.
  assert (Hmem : dict_mem "children" kwargs = true).
  { rewrite dict_lookup_mem, Hl. reflexivity. }
  rewrite Hmem. unfold dict_get.
  rewrite (dict_find_present _ _ _ _ _ Hl).
  change (py_truthy (PyList l)) with (py_truthy (PyTuple l)).
  destruct (negb allow && py_truthy (PyTuple l)); [reflexivity |].
  rewrite (VDOM_of_tag tag _ (PyList l) l
             (tuple_of_members _ _ (or_introl eq_refl))).
  rewrite (VDOM_of_tag tag _ (PyTuple l) l
             (tuple_of_members _ _ (or_intror eq_refl))).
  reflexivity.
Qed.

(** X17: the ['attributes'] keyword.  When a call of a component has the
    keyword ['attributes'] (and not ['children']), the value under it is the
    attribute mapping and every other keyword argument is dropped: the call
    is the one made with ['attributes'] alone. *)
Theorem attributes_keyword_drops_the_rest tag allow args kwargs a :
  dict_mem "children" kwargs = false ->
  dict_lookup "attributes" kwargs = Some a ->
  create_component tag allow args kwargs
  = create_component tag allow args [("attributes", a)].
Proof.
  intros Hc Ha. unfold create_component, resolve_children.
  rewrite Hc. cbn [dict_mem dict_find String.eqb Ascii.eqb Bool.eqb].
  assert (Hres : resolve_attributes kwargs
                 = resolve_attributes [("attributes", a)]).
  { unfold resolve_attributes. rewrite dict_lookup_mem, Ha.
    unfold dict_get. rewrite (dict_find_present _ _ _ _ _ Ha). reflexivity. }
  destruct args as [| [] []]; cbn [fst snd]; rewrite Hres; reflexivity.
Qed.

(** X18: [h] does not take its children positionally.  [h] hands the tuple
    of its positional arguments to the component as one argument, which is
    not a list and so becomes the single child, a tuple, that the
    constructor refuses.  Called with any positional arguments (none
    included) and with no ['children'] or ['attributes'] among its keyword
    arguments and the entries of [attrs], [h] raises
    [ValueError("Children must be a list of VDOM objects or strings")]. *)
Theorem h_refuses_positional_children tag cs kwargs a :
  dict_lookup "attrs" kwargs = Some (PyDict a)
  \/ (dict_mem "attrs" kwargs = false /\ a = []) ->
  dict_mem "children" kwargs = false ->
  dict_mem "attributes" kwargs = false ->
  dict_mem "children" a = false ->
  dict_mem "attributes" a = false ->
  h tag cs kwargs = raise (Raise ValueError (Some children_msg)).
Proof.
  intros Hattrs Hc Ha Hca Haa.
  assert (Hcall : forall kw,
             dict_mem "children" kw = false ->
             dict_mem "attributes" kw = false ->
             create_component tag true [PyTuple cs] (dict_update a kw)
             = raise (Raise ValueError (Some children_msg))).
  { intros kw Hckw Hakw. unfold create_component, resolve_children.
    rewrite dict_mem_update, Hca, Hckw. cbn [orb negb andb].
    unfold resolve_attributes. rewrite dict_mem_update, Haa, Hakw.
    cbn [orb].
    rewrite (VDOM_of_tag tag _ (PyTuple [PyTuple cs]) [PyTuple cs]
               (tuple_of_members _ _ (or_intror eq_refl))).
    rewrite frozen_attributes_dict. reflexivity. }
  unfold h. destruct Hattrs as [Hl | [Hno ->]].
  - rewrite dict_lookup_mem, Hl. unfold dict_get.
    rewrite (dict_find_present _ _ _ _ _ Hl).
    apply Hcall; rewrite dict_mem_remove_other by reflexivity; assumption.
  - rewrite Hno. apply Hcall; assumption.
Qed.

Lemma dict_mem_app k d d' :
  dict_mem k (d ++ d')%list = dict_mem k d || dict_mem k d'.
Proof.
  unfold dict_mem. induction d as [| [k0 v0] d IH]; [reflexivity |].
  cbn. destruct (String.eqb k k0); [reflexivity | exact IH].
Qed.

Lemma dict_set_fresh k v d :
  dict_mem k d = false -> dict_set k v d = (d ++ [(k, v)])%list.
Proof.
  unfold dict_mem. induction d as [| [k0 v0] d IH]; [reflexivity |].
  cbn. destruct (String.eqb k k0); [discriminate |].
  intros H. rewrite (IH H). reflexivity.
Qed.

Lemma dict_update_fresh d other :
  NoDup (map fst other) ->
  (forall k, In k (map fst other) -> dict_mem k d = false) ->
  dict_update d other = (d ++ other)%list.
Proof.
  unfold dict_update. revert d.
  induction other as [| [k v] other IH]; intros d Hnd Hfresh.
  - cbn. rewrite app_nil_r. reflexivity.
  - cbn [fold_left fst snd]. cbn [map fst] in Hnd, Hfresh.
    inversion Hnd as [| ? ? Hnotin Hnd']; subst.
    rewrite (dict_set_fresh k v d (Hfresh k (or_introl eq_refl))).
    rewrite (IH (d ++ [(k, v)])%list Hnd').
    + rewrite <- app_assoc. reflexivity.
    + intros k' Hk'. rewrite dict_mem_app, (Hfresh k' (or_intror Hk')).
      cbn. destruct (String.eqb_spec k' k) as [-> |]; [contradiction |].
      reflexivity.
Qed.

Lemma component_children_keyword tag allow args kwargs l :
  dict_lookup "children" kwargs = Some (PyList l) ->
  create_component tag allow args kwargs
  = create_component tag allow [PyList l] (dict_remove "children" kwargs).
Proof.
  intros Hl. unfold create_component, resolve_children.
  rewrite dict_mem_remove.
  assert (Hmem : dict_mem "children" kwargs = true).
  { rewrite dict_lookup_mem, Hl. reflexivity. }
  rewrite Hmem. unfold dict_get.
  rewrite (dict_find_present _ _ _ _ _ Hl).
  change (py_truthy (PyList l)) with (py_truthy (PyTuple l)).
  destruct (negb allow && py_truthy (PyTuple l)); [reflexivity |].
  rewrite (VDOM_of_tag tag _ (PyList l) l
             (tuple_of_members _ _ (or_introl eq_refl))).
  rewrite (VDOM_of_tag tag _ (PyTuple l) l
             (tuple_of_members _ _ (or_intror eq_refl))).
  reflexivity.
Qed.

(** X19: how [h] does take children.  Called with a list [l] under the
    keyword ['children'] and without [attrs], [h] is the component of that
    tag called with [l] and the remaining keyword arguments as attributes;
    its positional arguments are ignored. *)
Theorem h_children_keyword tag cs kwargs l :
  NoDup (map fst kwargs) ->
  dict_mem "attrs" kwargs = false ->
  dict_lookup "children" kwargs = Some (PyList l) ->
  h tag cs kwargs
  = create_component tag true [PyList l] (dict_remove "children" kwargs).
Proof.
  intros Hnd Hno Hl. unfold h. rewrite Hno.
  rewrite (dict_update_fresh [] kwargs Hnd) by reflexivity.
  cbn [app]. apply component_children_keyword. exact Hl.
Qed.

End FactoryFacts.

Section ToJsonFacts.

Context {env : Environment}.

Lemma dict_lookup_set_other k k' v d :
  String.eqb k k' = false ->
  dict_lookup k (dict_set k' v d) = dict_lookup k d.
Proof.
  intros Hk. unfold dict_lookup. induction d as [| [k0 v0] d IH].
  - cbn. rewrite Hk. reflexivity.
  - cbn. destruct (String.eqb k' k0) eqn:Hk0.
    + apply String.eqb_eq in Hk0. subst k0. cbn. rewrite Hk. reflexivity.
    + cbn. destruct (String.eqb k k0); [reflexivity | exact IH].
Qed.

Lemma dict_lookup_set_fresh k v d :
  dict_mem k d = false -> dict_lookup k (dict_set k v d) = Some v.
Proof.
  unfold dict_lookup, dict_mem. induction d as [| [k0 v0] d IH].
  - cbn. rewrite String.eqb_refl. reflexivity.
  - cbn. destruct (String.eqb k k0) eqn:Hk; [discriminate |].
    cbn. rewrite Hk. exact IH.
Qed.

Lemma with_defaults_complete d :
  dict_mem "attributes" d = true -> dict_mem "children" d = true ->
  with_defaults d = d.
Proof. intros Ha Hc. unfold with_defaults. rewrite Ha, Hc. reflexivity. Qed.

Lemma with_defaults_mem d :
  dict_mem "attributes" (with_defaults d) = true
  /\ dict_mem "children" (with_defaults d) = true
  /\ dict_mem "tagName" (with_defaults d) = dict_mem "tagName" d.
Proof.
  unfold with_defaults.
  destruct (dict_mem "attributes" d) eqn:Ha;
    [| rewrite !dict_mem_set]; cbn [String.eqb Ascii.eqb Bool.eqb orb];
    destruct (dict_mem "children" d) eqn:Hc;
    rewrite ?dict_mem_set, ?Ha, ?Hc;
    cbn [String.eqb Ascii.eqb Bool.eqb orb]; auto.
Qed.

Lemma to_json_dict d schema :
  to_json (PyDict d) schema
  = obind (if dict_mem "tagName" d then Returned (PyDict (with_defaults d))
           else Failed AssertionError)
          (fun json_el =>
             if py_truthy schema then
               if validate json_el schema then Returned json_el
               else Failed (Raised (Raise ValidationError None))
             else Returned json_el).
Proof. reflexivity. Qed.

Lemma to_json_list l :
  to_json (PyList l) PyNone
  = obind (mapM_outcome (fun x => to_json x PyNone) l)
          (fun js => Returned (PyList js)).
Proof.
  cbn. destruct (mapM_outcome _ l); reflexivity.
Qed.

Lemma to_json_element self :
  to_json (PyVDOM self) PyNone = outcome_of (to_dict (PyVDOM self)).
Proof.
  change (to_json (PyVDOM self) PyNone)
    with (obind (outcome_of (to_dict (PyVDOM self)))
                (fun json_el : pyval => Returned json_el)).
  destruct (to_dict (PyVDOM self)); reflexivity.
Qed.

Lemma to_dict_entries v j :
  to_dict v = Ok j ->
  exists d, j = PyDict d
            /\ dict_mem "tagName" d = true
            /\ dict_mem "attributes" d = true
            /\ dict_mem "children" d = true.
Proof.
  destruct v; try discriminate. destruct self as [t a c k f]. cbn.
  destruct t, a, k, c; try discriminate. cbn.
  match goal with |- (items <~ ?e ;; _) = _ -> _ => destruct e end;
    cbn; intros H; inversion H; eexists; split; try reflexivity;
    destruct (py_truthy p1); auto.
Qed.

(** X20: [to_json] is idempotent.  Without schema, whatever [to_json]
    returns is returned unchanged by a second [to_json]: strings and lists
    of converted members stay as they are, and a mapping converted once has
    its ['attributes'] and ['children']. *)
Theorem to_json_idempotent el j :
  to_json el PyNone = Returned j ->
  to_json j PyNone = Returned j.
Proof.
  revert j. induction el using pyval_nested_ind; intros j Hj;
    try (cbn in Hj; inversion Hj; subst; reflexivity).
  - (* a list *)
    rewrite to_json_list in Hj.
    destruct (mapM_outcome (fun x => to_json x PyNone) l) as [js | r] eqn:Hjs;
      [| discriminate].
    cbn in Hj. inversion Hj; subst. rewrite to_json_list.
    assert (Hsame : mapM_outcome (fun x => to_json x PyNone) js = Returned js).
    { clear Hj. revert js Hjs. induction H as [| x l Hx _ IH]; intros js Hjs.
      - cbn in Hjs. inversion Hjs. reflexivity.
      - cbn in Hjs.
        destruct (to_json x PyNone) as [jx | r] eqn:Hjx; [| discriminate].
        cbn in Hjs.
        change ((fix go (l0 : list pyval) : outcome (list pyval) :=
                   match l0 with
                   | [] => Returned []
                   | a :: l' =>
                       obind (to_json a PyNone)
                         (fun b => obind (go l') (fun bs => Returned (b :: bs)))
                   end) l)
          with (mapM_outcome (fun x => to_json x PyNone) l) in Hjs.
        destruct (mapM_outcome (fun x => to_json x PyNone) l) as [jl | r]
          eqn:Hjl; [| discriminate].
        cbn in Hjs. inversion Hjs; subst.
        cbn. rewrite (Hx jx eq_refl). cbn.
        change ((fix go (l0 : list pyval) : outcome (list pyval) :=
                   match l0 with
                   | [] => Returned []
                   | a :: l' =>
                       obind (to_json a PyNone)
                         (fun b => obind (go l') (fun bs => Returned (b :: bs)))
                   end) jl)
          with (mapM_outcome (fun x => to_json x PyNone) jl).
        rewrite (IH jl eq_refl). reflexivity. }
    rewrite Hsame. reflexivity.
  - (* a mapping *)
    rewrite to_json_dict in Hj.
    destruct (dict_mem "tagName" d) eqn:Htag; [| discriminate].
    cbn in Hj. inversion Hj; subst. rewrite to_json_dict.
    destruct (with_defaults_mem d) as (Ha & Hc & Ht).
    rewrite Ht, Htag, (with_defaults_complete _ Ha Hc). reflexivity.
  - (* an element *)
    rewrite to_json_element in Hj.
    destruct (to_dict (PyVDOM (mkSlots t a c k f))) as [dj | e] eqn:Hd;
      [| discriminate].
    cbn in Hj. inversion Hj; subst.
    destruct (to_dict_entries _ _ Hd) as (d & -> & Ht & Ha & Hc).
    rewrite to_json_dict, Ht, (with_defaults_complete _ Ha Hc). reflexivity.
Qed.

(** X21: [to_json] of a mapping.  A mapping without ['tagName'] fails the
    assertion, whatever the schema.  For a mapping with it, and no schema,
    [to_json] returns a mapping that has ['attributes'] and ['children'],
    an empty mapping and an empty list where the argument had none, and in
    which every entry of the argument is found unchanged; nested mappings
    are not converted. *)
Theorem to_json_mapping d schema :
  (dict_mem "tagName" d = false ->
   to_json (PyDict d) schema = Failed AssertionError)
  /\ (dict_mem "tagName" d = true ->
      exists d',
        to_json (PyDict d) PyNone = Returned (PyDict d')
        /\ (forall k v, dict_lookup k d = Some v -> dict_lookup k d' = Some v)
        /\ (dict_mem "attributes" d = false ->
            dict_lookup "attributes" d' = Some (PyDict []))
        /\ (dict_mem "children" d = false ->
            dict_lookup "children" d' = Some (PyList []))).
Proof.
  split; intros Htag; rewrite to_json_dict, Htag; [reflexivity |].
  exists (with_defaults d). split; [reflexivity |].
  assert (Hkeep : forall k k' v0 d0 v,
             dict_mem k' d0 = false -> dict_lookup k d0 = Some v ->
             dict_lookup k (dict_set k' v0 d0) = Some v).
  { intros k k' v0 d0 v Hfresh Hk.
    destruct (String.eqb k k') eqn:Hkk.
    - apply String.eqb_eq in Hkk. subst k'.
      rewrite dict_lookup_mem, Hk in Hfresh. discriminate.
    - rewrite dict_lookup_set_other by exact Hkk. exact Hk. }
  unfold with_defaults.
  destruct (dict_mem "attributes" d) eqn:Ha.
  - destruct (dict_mem "children" d) eqn:Hc.
    + repeat split; auto; discriminate.
    + repeat split; try discriminate.
      * intros k v Hk. apply Hkeep; assumption.
      * intros _. apply dict_lookup_set_fresh. exact Hc.
  - assert (Hc' : dict_mem "children" (dict_set "attributes" (PyDict []) d)
                  = dict_mem "children" d).
    { rewrite dict_mem_set. reflexivity. }
    rewrite Hc'. destruct (dict_mem "children" d) eqn:Hc.
    + repeat split; try discriminate.
      * intros k v Hk. apply Hkeep; assumption.
      * intros _. apply dict_lookup_set_fresh. exact Ha.
    + repeat split.
      * intros k v Hk. apply Hkeep; [rewrite Hc'; reflexivity |].
        apply Hkeep; assumption.
      * intros _. rewrite dict_lookup_set_other by reflexivity.
        apply dict_lookup_set_fresh. exact Ha.
      * intros _. apply dict_lookup_set_fresh. rewrite Hc'. reflexivity.
Qed.

End ToJsonFacts.

(** X22: the slots are all there is.  Assigning an attribute under any name
    other than the five of [__slots__] raises and leaves the object as it
    was.  On a frozen object the exception is the [AttributeError] of the
    freeze; before the freeze it is the one of [object.__setattr__]:
    [TypeError] for [__class__] (the value assigned, one of [pyval], is
    never a class) and [AttributeError] for every other name. *)
Theorem setattr_unknown_name self attr value :
  ~ In attr ["tag_name"; "attributes"; "children"; "key"; "_frozen"] ->
  exists e,
    __setattr__ self attr value = (self, Err e)
    /\ exc_type e = (if negb (is_frozen self) && String.eqb attr "__class__"
                     then TypeError else AttributeError).
Proof.
  intros Hnot. unfold __setattr__.
  destruct (is_frozen self); [eexists; split; reflexivity |].
  assert (Hnone : object_setattr self attr value
                  = Err (Raise (if String.eqb attr "__class__"
                                then TypeError else AttributeError) None)).
  { destruct self as [t a c k f]. unfold object_setattr.
    repeat match goal with
           | |- context [if String.eqb attr ?n then Ok _ else _] =>
               destruct (String.eqb_spec attr n) as [-> |];
               [exfalso; apply Hnot; cbn; tauto |]
           end.
    destruct (String.eqb attr "__class__"); reflexivity. }
  rewrite Hnone. eexists; split; reflexivity.
Qed.

(* ================================================================= *)
(** ** These properties at work *)

Lemma schema_v1_accepts_valid_trees t d :
  valid_tree t = true -> to_dict t = Ok d ->
  validate (Environment := env_v1) d VDOM_SCHEMA = true.
Proof. intros Ht Hd. cbn. exact (wire_format_of_tree t Ht d Hd). Qed.

Lemma VDOM_materializes_defaults_witness :
  VDOM (env := env_v1) (PyInt 5) (PyDict []) (PyStr "") (PyStr "k") PyNone
  = ret (PyVDOM (built (PyInt 5) (PyDict []) [] (PyStr "k"))).
Proof.
  apply (@VDOM_materializes_defaults env_v1); reflexivity.
Defined.

Lemma VDOM_string_children_witness :
  VDOM (env := env_v1) (PyStr "h1") PyNone (PyStr "Hey") PyNone PyNone
  = ret (PyVDOM (built (PyStr "h1") (PyDict [])
                       [PyStr "H"; PyStr "e"; PyStr "y"] PyNone))
  /\ _repr_html_ (PyVDOM (built (PyStr "h1") (PyDict []) (chars "Hey") PyNone))
     = _repr_html_ (PyVDOM (built (PyStr "h1") (PyDict []) [PyStr "Hey"] PyNone)).
Proof.
  apply (@VDOM_string_children env_v1 (PyStr "h1") PyNone PyNone "Hey"
           (PyDict []));
    [reflexivity | reflexivity | discriminate].
Defined.

Lemma VDOM_children_not_iterable_witness :
  VDOM (env := env_v1) (PyStr "div") PyNone (leaf "p") PyNone PyNone
  = raise (Raise TypeError None)
  /\ exc_type (Raise TypeError None) = TypeError.
Proof.
  apply (@VDOM_children_not_iterable env_v1 (PyStr "div") PyNone (leaf "p")
           PyNone PyNone (PyDict []));
    reflexivity.
Defined.

Lemma VDOM_constructed_witness :
  constructed (PyVDOM (built (PyInt 1) (PyDict [("n", PyInt 2)])
                             [leaf "p"; PyStr "x"] PyNone)) = true.
Proof.
  apply (@VDOM_constructed env_v1 (PyInt 1) (PyDict [("n", PyInt 2)])
           (PyList [leaf "p"; PyStr "x"]) PyNone PyNone []).
  - reflexivity.
  - intros l [= <-].
    constructor; [intros _; reflexivity |].
    constructor; [intros H; discriminate | constructor].
  - reflexivity.
Defined.

Lemma plain_construction_is_silent_witness :
  fst (VDOM (env := env_v1) (PyStr "div") PyNone (PyList [PyInt 5]) PyNone
            PyNone) = []
  /\ fst (create_component (env := env_v1) "img" false [PyStr "x"] []) = [].
Proof.
  apply (@plain_construction_is_silent env_v1). reflexivity.
Defined.

Lemma VDOM_with_schema_witness :
  VDOM (env := env_v1) (PyStr "div") (PyDict [("n", PyInt 2)]) PyNone PyNone
       schema_v1
  = ([], Err (Raise ValidationError None)).
Proof.
  apply (@VDOM_with_schema env_v1 (PyStr "div") (PyDict [("n", PyInt 2)])
           PyNone PyNone schema_v1
           (PyVDOM (built (PyStr "div") (PyDict [("n", PyInt 2)]) [] PyNone))
           (PyDict [("tagName", PyStr "div");
                    ("attributes", PyDict [("n", PyInt 2)]);
                    ("children", PyList [])]));
    [reflexivity | discriminate | reflexivity | reflexivity].
Defined.

Lemma from_dict_needs_tagName_witness :
  exists d tag,
    PyDict [("tagName", PyStr "p"); ("children", PyList [PyStr "x"])]
    = PyDict d
    /\ dict_lookup "tagName" d = Some tag
    /\ validate (Environment := env_v1)
         (PyDict [("tagName", PyStr "p"); ("children", PyList [PyStr "x"])])
         VDOM_SCHEMA = true.
Proof.
  apply (@from_dict_needs_tagName env_v1
           (PyDict [("tagName", PyStr "p"); ("children", PyList [PyStr "x"])])
           [] (PyVDOM (built (PyStr "p") (PyDict []) [PyStr "x"] PyNone))).
  reflexivity.
Defined.

Lemma from_dict_defaults_witness :
  from_dict (env := env_v1) (PyDict [("tagName", PyStr "hr")])
  = ret (leaf "hr").
Proof.
  apply (@from_dict_defaults env_v1 [("tagName", PyStr "hr")] (PyStr "hr"));
    reflexivity.
Defined.

Lemma round_trip_normalizes_keys_witness :
  exists d, to_dict empty_key_tree = Ok d
            /\ from_dict (env := env_v1) d
               = ([], Ok (without_false_keys empty_key_tree)).
Proof.
  apply (@round_trip_normalizes_keys env_v1 empty_key_tree);
    [exact schema_v1_accepts_valid_trees | reflexivity].
Defined.

Lemma structured_form_is_stable_witness :
  exists d t', to_dict empty_key_tree = Ok d
               /\ from_dict (env := env_v1) d = ([], Ok t')
               /\ to_dict t' = Ok d.
Proof.
  apply (@structured_form_is_stable env_v1 empty_key_tree);
    [exact schema_v1_accepts_valid_trees | reflexivity].
Defined.

Lemma from_dict_constructed_witness :
  constructed (PyVDOM (built (PyStr "b") (PyDict []) [PyStr "x"; leaf "i"]
                             PyNone)) = true.
Proof.
  apply (@from_dict_constructed env_v1
           (PyDict [("tagName", PyStr "b");
                    ("children", PyList [PyStr "x";
                                         PyDict [("tagName", PyStr "i")]])])
           []);
    reflexivity.
Defined.

Lemma escape_injective_witness : "a<b" = "a<b".
Proof. apply (escape_injective "a<b" "a<b"). reflexivity. Defined.

Lemma markup_needs_strings_witness :
  _repr_html_ (PyVDOM (built (PyStr "div") (PyDict [("n", PyInt 2)]) []
                             PyNone))
  = Err (Raise AttributeError None).
Proof.
  apply (markup_needs_strings
           (PyVDOM (built (PyStr "div") (PyDict [("n", PyInt 2)]) [] PyNone))).
  reflexivity.
Defined.

Lemma mimebundle_outcome_witness :
  (renderable link_tree = true ->
   exists d out,
     to_dict link_tree = Ok d /\ _repr_html_ link_tree = Ok out
     /\ _repr_mimebundle_ link_tree
        = Ok (PyDict [("application/vdom.v1+json", d);
                      ("text/plain", PyStr out)]))
  /\ (renderable link_tree = false ->
      _repr_mimebundle_ link_tree = Err (Raise AttributeError None)).
Proof. apply (mimebundle_outcome link_tree). reflexivity. Defined.

Lemma children_keyword_overrides_arguments_witness :
  create_component (env := env_v1) "div" true [PyStr "x"; PyInt 5]
                   [("id", PyStr "a"); ("children", PyList [PyStr "y"])]
  = create_component (env := env_v1) "div" true [PyList [PyStr "y"]]
                     [("id", PyStr "a")].
Proof.
  apply (@children_keyword_overrides_arguments env_v1 "div" true
           [PyStr "x"; PyInt 5]
           [("id", PyStr "a"); ("children", PyList [PyStr "y"])] [PyStr "y"]).
  reflexivity.
Defined.

Lemma attributes_keyword_drops_the_rest_witness :
  create_component (env := env_v1) "div" true []
                   [("id", PyStr "a"); ("attributes", PyDict [("x", PyStr "1")])]
  = create_component (env := env_v1) "div" true []
                     [("attributes", PyDict [("x", PyStr "1")])].
Proof.
  apply (@attributes_keyword_drops_the_rest env_v1 "div" true []
           [("id", PyStr "a"); ("attributes", PyDict [("x", PyStr "1")])]
           (PyDict [("x", PyStr "1")]));
    reflexivity.
Defined.

(** The example of the docstring of [h]: [h('div', [h('p', 'hey')])]; the
    inner call raises already. *)
Lemma h_refuses_positional_children_witness :
  h (env := env_v1) "p" [PyStr "hey"] []
  = raise (Raise ValueError (Some children_msg)).
Proof.
  apply (@h_refuses_positional_children env_v1 "p" [PyStr "hey"] [] []);
    [right; split; reflexivity | reflexivity ..].
Defined.

Lemma h_children_keyword_witness :
  h (env := env_v1) "div" [PyStr "ignored"]
    [("id", PyStr "a"); ("children", PyList [PyStr "y"])]
  = create_component (env := env_v1) "div" true [PyList [PyStr "y"]]
                     [("id", PyStr "a")].
Proof.
  apply (@h_children_keyword env_v1 "div" [PyStr "ignored"]
           [("id", PyStr "a"); ("children", PyList [PyStr "y"])] [PyStr "y"]).
  - repeat constructor; cbn; intuition discriminate.
  - reflexivity.
  - reflexivity.
Defined.

Lemma to_json_idempotent_witness :
  to_json (env := env_v1)
    (PyList [PyStr "x"; PyDict [("tagName", PyStr "p")]; leaf "br"]) PyNone
  = Returned (PyList [PyStr "x";
                      PyDict [("tagName", PyStr "p");
                              ("attributes", PyDict []);
                              ("children", PyList [])];
                      PyDict [("tagName", PyStr "br");
                              ("attributes", PyDict []);
                              ("children", PyList [])]])
  /\ to_json (env := env_v1)
       (PyList [PyStr "x";
                PyDict [("tagName", PyStr "p");
                        ("attributes", PyDict []);
                        ("children", PyList [])];
                PyDict [("tagName", PyStr "br");
                        ("attributes", PyDict []);
                        ("children", PyList [])]]) PyNone
     = Returned (PyList [PyStr "x";
                         PyDict [("tagName", PyStr "p");
                                 ("attributes", PyDict []);
                                 ("children", PyList [])];
                         PyDict [("tagName", PyStr "br");
                                 ("attributes", PyDict []);
                                 ("children", PyList [])]]).
Proof.
  split; [reflexivity |].
  apply (@to_json_idempotent env_v1
           (PyList [PyStr "x"; PyDict [("tagName", PyStr "p")]; leaf "br"])).
  reflexivity.
Defined.

Lemma to_json_mapping_witness :
  to_json (env := env_v1) (PyDict [("children", PyList [])]) schema_v1
  = Failed AssertionError
  /\ exists d',
       to_json (env := env_v1)
         (PyDict [("tagName", PyStr "p"); ("key", PyStr "k")]) PyNone
       = Returned (PyDict d')
       /\ dict_lookup "key" d' = Some (PyStr "k")
       /\ dict_lookup "attributes" d' = Some (PyDict [])
       /\ dict_lookup "children" d' = Some (PyList []).
Proof.
  split.
  - exact (proj1 (@to_json_mapping env_v1 [("children", PyList [])] schema_v1)
                 eq_refl).
  - destruct (proj2 (@to_json_mapping env_v1
                       [("tagName", PyStr "p"); ("key", PyStr "k")] PyNone)
                    eq_refl) as (d' & Hd & Hkeep & Ha & Hc).
    exists d'. split; [exact Hd |]. split; [apply Hkeep; reflexivity |].
    split; [apply Ha | apply Hc]; reflexivity.
Defined.

Lemma setattr_unknown_name_witness :
  (exists e,
      __setattr__ new_object "style" (PyStr "x") = (new_object, Err e)
      /\ exc_type e = AttributeError)
  /\ (exists e,
         __setattr__ new_object "__class__" (PyInt 5) = (new_object, Err e)
         /\ exc_type e = TypeError).
Proof.
  split.
  - apply (setattr_unknown_name new_object "style" (PyStr "x")).
    cbn. intuition discriminate.
  - apply (setattr_unknown_name new_object "__class__" (PyInt 5)).
    cbn. intuition discriminate.
Defined.
